(** * terraform-provider-codedeploy: the deployment resource

    A shallow embedding of the file of package [provider] that declares the
    deployment resource (its current revision and the one before it) and of
    the parts of the Go standard library, the AWS SDK and the Terraform
    plugin SDK that the resource calls, followed by the properties of the
    resource's create, read and delete operations and of its revision
    resolver.

    Go values are modelled as the code has them: [map[string]any] as
    [gmap string any], a pointer as an [option], a [time.Duration] as a
    64-bit [Z], a panic as an outcome of its own.  The remote service and
    the waiter are the fields of a [Client] record over an abstract remote
    state; every call made through the client is written to a log. *)

From Stdlib Require Import ZArith Lia Ascii.
From stdpp Require Import base option list strings gmap.

#[local] Set Warnings "-register-all".
#[local] Open Scope Z_scope.

(** ** crypto/sha256 and encoding/hex *)

Module sha256.

Definition mask32 (x : Z) : Z := Z.land x 0xffffffff.
Definition add32 (x y : Z) : Z := mask32 (x + y).
Definition rotr (n x : Z) : Z :=
  Z.lor (Z.shiftr x n) (mask32 (Z.shiftl x (32 - n))).
Definition shr (n x : Z) : Z := Z.shiftr x n.

Definition Ch (x y z : Z) : Z :=
  Z.lxor (Z.land x y) (Z.land (mask32 (Z.lnot x)) z).
Definition Maj (x y z : Z) : Z :=
  Z.lxor (Z.lxor (Z.land x y) (Z.land x z)) (Z.land y z).
Definition bsig0 (x : Z) : Z := Z.lxor (Z.lxor (rotr 2 x) (rotr 13 x)) (rotr 22 x).
Definition bsig1 (x : Z) : Z := Z.lxor (Z.lxor (rotr 6 x) (rotr 11 x)) (rotr 25 x).
Definition ssig0 (x : Z) : Z := Z.lxor (Z.lxor (rotr 7 x) (rotr 18 x)) (shr 3 x).
Definition ssig1 (x : Z) : Z := Z.lxor (Z.lxor (rotr 17 x) (rotr 19 x)) (shr 10 x).

(** The constants of the algorithm.  The table [_K] of Go's package holds
    the first 32 bits of the fractional parts of the cube roots of the first
    64 primes, and the initial hash value those of the square roots of the
    first 8; they are computed here as defined. *)
Definition is_prime (n : nat) : bool :=
  forallb (fun d => negb (Nat.eqb (Nat.modulo n d) 0)) (seq 2 (n - 2)).
Definition primes : list Z :=
  Z.of_nat <$> List.filter is_prime (seq 2 310).

(** The integer cube root, one bit at a time from bit [bits - 1] down. *)
Fixpoint cbrt_bits (bits : nat) (n r : Z) : Z :=
  match bits with
  | O => r
  | S b =>
      let c := r + 2 ^ Z.of_nat b in
      cbrt_bits b n (if c * c * c <=? n then c else r)
  end.
Definition cbrt (n : Z) : Z := cbrt_bits 40 n 0.

Definition _K : list Z :=
  (fun q => mask32 (cbrt (q * 2 ^ 96))) <$> primes.

Definition init : list Z :=
  (fun q => mask32 (Z.sqrt (q * 2 ^ 64))) <$> take 8 primes.

(** Big-endian encodings. *)
Definition byte_at (i x : Z) : Z := Z.land (Z.shiftr x (8 * i)) 0xff.
Definition be32 (x : Z) : list Z := [byte_at 3 x; byte_at 2 x; byte_at 1 x; byte_at 0 x].
Definition be64 (x : Z) : list Z := be32 (Z.shiftr x 32) ++ be32 x.
Definition word_of (bs : list Z) : Z :=
  fold_left (fun acc b => Z.lor (Z.shiftl acc 8) b) bs 0.

(** The message, one [0x80] byte, zero bytes up to 56 modulo 64, and the
    length in bits on eight bytes. *)
Definition pad (msg : list Z) : list Z :=
  let len := Z.of_nat (length msg) in
  msg ++ [0x80] ++ replicate (Z.to_nat ((55 - len) mod 64)) 0 ++ be64 (8 * len).

Fixpoint words (n : nat) (bs : list Z) : list Z :=
  match n with
  | O => []
  | S n' => word_of (take 4 bs) :: words n' (drop 4 bs)
  end.

(** The message schedule: [w] holds W[0..t-1]; [n] more words to add. *)
Fixpoint schedule (n : nat) (w : list Z) : list Z :=
  match n with
  | O => w
  | S n' =>
      let t := length w in
      let at_ (k : nat) := nth (t - k) w 0 in
      schedule n' (w ++ [add32 (add32 (ssig1 (at_ 2%nat)) (at_ 7%nat))
                               (add32 (ssig0 (at_ 15%nat)) (at_ 16%nat))])
  end.

Record regs := Regs { ra : Z; rb : Z; rc : Z; rd : Z; re : Z; rf : Z; rg : Z; rh : Z }.

Definition round (s : regs) (kw : Z * Z) : regs :=
  let t1 := add32 (add32 (add32 (rh s) (bsig1 (re s))) (add32 (Ch (re s) (rf s) (rg s)) (fst kw))) (snd kw) in
  let t2 := add32 (bsig0 (ra s)) (Maj (ra s) (rb s) (rc s)) in
  Regs (add32 t1 t2) (ra s) (rb s) (rc s) (add32 (rd s) t1) (re s) (rf s) (rg s).

Definition regs_of (h : list Z) : regs :=
  Regs (nth 0 h 0) (nth 1 h 0) (nth 2 h 0) (nth 3 h 0)
       (nth 4 h 0) (nth 5 h 0) (nth 6 h 0) (nth 7 h 0).
Definition list_of (s : regs) : list Z :=
  [ra s; rb s; rc s; rd s; re s; rf s; rg s; rh s].

Definition block (h : list Z) (chunk : list Z) : list Z :=
  let w := schedule 48 (words 16 chunk) in
  let s := fold_left round (zip _K w) (regs_of h) in
  zip_with add32 h (list_of s).

Fixpoint blocks (n : nat) (h : list Z) (bs : list Z) : list Z :=
  match n with
  | O => h
  | S n' => blocks n' (block h (take 64 bs)) (drop 64 bs)
  end.

(** [sha256.Sum256]: the 32 bytes of the digest. *)
Definition Sum256 (data : list Z) : list Z :=
  let p := pad data in
  concat (be32 <$> blocks (length p / 64) init p).

End sha256.

Module hex.

Definition hextable : string := "0123456789abcdef".

Definition digit (v : Z) : ascii :=
  match String.get (Z.to_nat v) hextable with
  | Some c => c
  | None => "0"%char
  end.

(** [hex.EncodeToString]: two characters of [hextable] per byte. *)
Fixpoint EncodeToString (src : list Z) : string :=
  match src with
  | [] => EmptyString
  | v :: rest =>
      String (digit (Z.shiftr v 4)) (String (digit (Z.land v 0x0f)) (EncodeToString rest))
  end.

End hex.

(** [[]byte(s)]: a Go string is its bytes. *)
Definition bytes_of (s : string) : list Z :=
  (fun c => Z.of_N (N_of_ascii c)) <$> String.list_ascii_of_string s.


(** ** Go values *)

(** What a Go function does when it does not return. *)
Inductive panic : Type :=
| InterfaceConversion   (* a failed type assertion [x.(T)] *)
| IndexOutOfRange       (* [l[i]] past the end of a slice *)
| NilDereference.       (* a field or value read through a nil pointer *)

Inductive outcome (A : Type) : Type :=
| Returned (a : A)
| Panicked (p : panic).
Arguments Returned {A} a.
Arguments Panicked {A} p.

#[global] Instance outcome_ret : MRet outcome := fun A a => Returned a.
#[global] Instance outcome_bind : MBind outcome := fun A B f x =>
  match x with
  | Returned a => f a
  | Panicked p => Panicked p
  end.

(** A value of interface type [any], by its dynamic type.  [BundleType] is
    the SDK's [type BundleType string]: a type of its own, which a
    type assertion tells apart from [string]. *)
Inductive any : Type :=
| ANil
| AString (s : string)
| ABool (b : bool)
| ABundleType (s : string)
| ADeploymentStatus (s : string)
| ASlice (l : list any)
| AMap (m : gmap string any).

(** [x.(string)], [x.(bool)], [x.(codedeployTypes.BundleType)], [x.([]any)]
    and [x.(map[string]any)]. *)
Definition assertString (x : any) : outcome string :=
  match x with AString s => Returned s | _ => Panicked InterfaceConversion end.
Definition assertBool (x : any) : outcome bool :=
  match x with ABool b => Returned b | _ => Panicked InterfaceConversion end.
Definition assertBundleType (x : any) : outcome string :=
  match x with ABundleType s => Returned s | _ => Panicked InterfaceConversion end.
Definition assertSlice (x : any) : outcome (list any) :=
  match x with ASlice l => Returned l | _ => Panicked InterfaceConversion end.
Definition assertMap (x : any) : outcome (gmap string any) :=
  match x with AMap m => Returned m | _ => Panicked InterfaceConversion end.

(** [m[k]] on a [map[string]any]: the zero value [nil] for a missing key. *)
Definition mapIndex (m : gmap string any) (k : string) : any :=
  default ANil (m !! k).

(** [l[i]] on a slice. *)
Definition sliceIndex (l : list any) (i : nat) : outcome any :=
  match l !! i with
  | Some x => Returned x
  | None => Panicked IndexOutOfRange
  end.

(** [*p], and [p.f] for a pointer [p] to a struct. *)
Definition deref {A : Type} (p : option A) : outcome A :=
  match p with
  | Some a => Returned a
  | None => Panicked NilDereference
  end.

(** The Go [error] interface, by the text of [err.Error()]; a nil error is
    [None]. *)
Definition error : Type := string.

(** ** time *)

Module time.
(** [time.Duration] is an [int64] count of nanoseconds. *)
Definition wrap64 (x : Z) : Z := (x + 2 ^ 63) mod 2 ^ 64 - 2 ^ 63.
Definition sub (a b : Z) : Z := wrap64 (a - b).
Definition Second : Z := 1000000000.
Definition Minute : Z := 60 * Second.
End time.

(** ** The AWS SDK: service/codedeploy and service/codedeploy/types

    The structs carry the fields the provider reads or writes; a composite
    literal leaves every other field of the SDK's struct at its zero
    value. *)

Module codedeployTypes.

(** [type RevisionLocationType string] and its constants. *)
Definition RevisionLocationTypeS3 : string := "S3".
Definition RevisionLocationTypeGitHub : string := "GitHub".
Definition RevisionLocationTypeAppSpecContent : string := "AppSpecContent".

(** [type DeploymentStatus string] and the constants the provider names. *)
Definition DeploymentStatusSucceeded : string := "Succeeded".
Definition DeploymentStatusFailed : string := "Failed".
Definition DeploymentStatusStopped : string := "Stopped".

End codedeployTypes.

Module S3Location.
Record t : Type := {
  Bucket : option string;
  Key : option string;
  BundleType : string
}.
End S3Location.

Module GitHubLocation.
Record t : Type := {
  Repository : option string;
  CommitId : option string
}.
End GitHubLocation.

Module AppSpecContent.
Record t : Type := {
  Content : option string;
  Sha256 : option string
}.
End AppSpecContent.

Module RevisionLocation.
Record t : Type := {
  RevisionType : string;
  S3Location : option S3Location.t;
  GitHubLocation : option GitHubLocation.t;
  AppSpecContent : option AppSpecContent.t
}.
End RevisionLocation.

Module DeploymentInfo.
Record t : Type := {
  DeploymentId : option string;
  Status : string
}.
End DeploymentInfo.


Module CreateDeploymentInput.
Record t : Type := {
  ApplicationName : option string;
  DeploymentGroupName : option string;
  Revision : option RevisionLocation.t
}.
(** [var input codedeploy.CreateDeploymentInput] *)
Definition zero : t :=
  {| ApplicationName := None; DeploymentGroupName := None; Revision := None |}.
End CreateDeploymentInput.

Module CreateDeploymentOutput.
Record t : Type := { DeploymentId : option string }.
End CreateDeploymentOutput.

Module GetDeploymentInput.
Record t : Type := { DeploymentId : option string }.
End GetDeploymentInput.

Module GetDeploymentOutput.
Record t : Type := { DeploymentInfo : option DeploymentInfo.t }.
End GetDeploymentOutput.

Module StopDeploymentInput.
Record t : Type := {
  DeploymentId : option string;
  AutoRollbackEnabled : option bool
}.
End StopDeploymentInput.

Module StopDeploymentOutput.
Record t : Type := { Status : string; StatusMessage : option string }.
End StopDeploymentOutput.

(** [aws.String] and [aws.Bool]: a pointer to the value. *)
Module aws.
Definition String (s : string) : option string := Some s.
Definition Bool (b : bool) : option bool := Some b.
(** [aws.RetryModeAdaptive], of [type RetryMode string]. *)
Definition RetryModeAdaptive : string := "adaptive".
End aws.

(** ** The Terraform plugin SDK: diag and helper/schema *)

Module diag.

Inductive Severity : Type := Error | Warning.

Record Diagnostic : Type := {
  severity : Severity;
  Summary : string
}.

(** [diag.Diagnostics]; the nil slice is the empty list. *)
Definition Diagnostics : Type := list Diagnostic.

(** [diag.FromErr]: nothing for a nil error, else one diagnostic of
    severity [Error] with the error's text. *)
Definition FromErr (err : option error) : Diagnostics :=
  match err with
  | None => []
  | Some e => [ {| severity := Error; Summary := e |} ]
  end.

(** [Diagnostics.HasError] *)
Definition HasError (diags : Diagnostics) : bool :=
  existsb (fun dg => match severity dg with Error => true | Warning => false end) diags.

End diag.

Module schema.

Definition TimeoutCreate : string := "create".

(** [*schema.ResourceData]: the identity, the attribute values, the
    configured timeouts, and the verdict of the schema's field writer on a
    write ([None] when it accepts it). *)
Record ResourceData : Type := {
  id : string;
  attrs : gmap string any;
  timeouts : gmap string Z;
  writer : string -> any -> option error
}.

Definition Get (d : ResourceData) (key : string) : any :=
  default ANil (attrs d !! key).

(** [d.Timeout]: the configured timeout, else the SDK's 20 minutes. *)
Definition Timeout (d : ResourceData) (key : string) : Z :=
  default (20 * time.Minute) (timeouts d !! key).

Definition SetId (d : ResourceData) (v : string) : ResourceData :=
  {| id := v; attrs := attrs d; timeouts := timeouts d; writer := writer d |}.

(** [d.Set]: the error of the field writer, or the value written. *)
Definition Set_ (d : ResourceData) (key : string) (value : any)
  : ResourceData * option error :=
  match writer d key value with
  | Some e => (d, Some e)
  | None =>
      ({| id := id d; attrs := <[key := value]> (attrs d);
          timeouts := timeouts d; writer := writer d |}, None)
  end.

End schema.

(** ** The service client, the waiter and the state of a run *)

(** The calls the provider makes through the client, as they are logged. *)
Inductive Call : Type :=
| CallCreateDeployment (input : CreateDeploymentInput.t)
| CallWaitForOutput (MaxDelay : Z) (params : GetDeploymentInput.t) (maxWaitDur : Z)
| CallGetDeployment (params : GetDeploymentInput.t)
| CallStopDeployment (params : StopDeploymentInput.t).

Definition isStop (c : Call) : bool :=
  match c with CallStopDeployment _ => true | _ => false end.

(** A Go result pair: a pointer to the output, and an error. *)
Definition result (T : Type) : Type := (option T * option error)%type.

(** [*codedeploy.Client] and the waiter built on it by
    [codedeploy.NewDeploymentSuccessfulWaiter], over the state of the remote
    service (and of the context: deadline, cancellation).  [WaitForOutput]
    takes the [MaxDelay] option, the request and the maximum wait. *)
Record Client (Remote : Type) : Type := {
  CreateDeployment :
    CreateDeploymentInput.t -> Remote -> result CreateDeploymentOutput.t * Remote;
  GetDeployment :
    GetDeploymentInput.t -> Remote -> result GetDeploymentOutput.t * Remote;
  StopDeployment :
    StopDeploymentInput.t -> Remote -> result StopDeploymentOutput.t * Remote;
  WaitForOutput :
    Z -> GetDeploymentInput.t -> Z -> Remote -> result GetDeploymentOutput.t * Remote
}.
Arguments CreateDeployment {Remote} _ _ _.
Arguments GetDeployment {Remote} _ _ _.
Arguments StopDeployment {Remote} _ _ _.
Arguments WaitForOutput {Remote} _ _ _ _ _.

(** The state a lifecycle operation runs in: the resource data [d] it is
    handed, the remote service, and the log of the calls made so far. *)
Record State (Remote : Type) : Type := {
  data : schema.ResourceData;
  remote : Remote;
  calls : list Call
}.
Arguments data {Remote} _.
Arguments remote {Remote} _.
Arguments calls {Remote} _.
Arguments Build_State {Remote} _ _ _.

(** State passing, with panics. *)
Definition M (Remote : Type) (A : Type) : Type :=
  State Remote -> outcome A * State Remote.

#[global] Instance M_ret {Remote} : MRet (M Remote) := fun A a s => (Returned a, s).
#[global] Instance M_bind {Remote} : MBind (M Remote) := fun A B f m s =>
  match m s with
  | (Returned a, s') => f a s'
  | (Panicked p, s') => (Panicked p, s')
  end.

Section Operations.
Context {Remote : Type}.

Definition lift {A : Type} (x : outcome A) : M Remote A := fun s => (x, s).

(** Accessors of [d]. *)
Definition dGet (key : string) : M Remote any :=
  fun s => (Returned (schema.Get (data s) key), s).
Definition dTimeout (key : string) : M Remote Z :=
  fun s => (Returned (schema.Timeout (data s) key), s).
Definition dId : M Remote string :=
  fun s => (Returned (schema.id (data s)), s).
Definition dSetId (v : string) : M Remote unit :=
  fun s => (Returned tt, Build_State (schema.SetId (data s) v) (remote s) (calls s)).
Definition dSet (key : string) (value : any) : M Remote (option error) :=
  fun s =>
    let '(d', err) := schema.Set_ (data s) key value in
    (Returned err, Build_State d' (remote s) (calls s)).

(** A call through the client: logged, then answered by the remote. *)
Definition call {T : Type} (c : Call) (f : Remote -> result T * Remote)
  : M Remote (result T) :=
  fun s =>
    let '(r, remote') := f (remote s) in
    (Returned r, Build_State (data s) remote' (calls s ++ [c])).

Variable svc : Client Remote.

Definition svcCreateDeployment (input : CreateDeploymentInput.t) :=
  call (CallCreateDeployment input) (CreateDeployment svc input).
Definition svcGetDeployment (params : GetDeploymentInput.t) :=
  call (CallGetDeployment params) (GetDeployment svc params).
Definition svcStopDeployment (params : StopDeploymentInput.t) :=
  call (CallStopDeployment params) (StopDeployment svc params).
Definition waiterWaitForOutput (MaxDelay : Z) (params : GetDeploymentInput.t) (maxWaitDur : Z) :=
  call (CallWaitForOutput MaxDelay params maxWaitDur)
       (WaitForOutput svc MaxDelay params maxWaitDur).

End Operations.

(** ** The deployment resource, current revision *)

(** The three resolvers.  The fields of the composite literal are evaluated
    in order, so the first failing type assertion is the one that panics. *)

Definition prepareDeploymentInputWithS3Location
    (applicationName deploymentGroupName : string) (s3Location : gmap string any)
  : outcome CreateDeploymentInput.t :=
  bucket ← assertString (mapIndex s3Location "bucket");
  key ← assertString (mapIndex s3Location "key");
  bundleType ← assertBundleType (mapIndex s3Location "bundle_type");
  mret {|
    CreateDeploymentInput.ApplicationName := aws.String applicationName;
    CreateDeploymentInput.DeploymentGroupName := aws.String deploymentGroupName;
    CreateDeploymentInput.Revision := Some {|
      RevisionLocation.RevisionType := codedeployTypes.RevisionLocationTypeS3;
      RevisionLocation.S3Location := Some {|
        S3Location.Bucket := aws.String bucket;
        S3Location.Key := aws.String key;
        S3Location.BundleType := bundleType |};
      RevisionLocation.GitHubLocation := None;
      RevisionLocation.AppSpecContent := None |} |}.

Definition prepareDeploymentInputWithGitHubLocation
    (applicationName deploymentGroupName : string) (githubLocation : gmap string any)
  : outcome CreateDeploymentInput.t :=
  repository ← assertString (mapIndex githubLocation "repository");
  commitId ← assertString (mapIndex githubLocation "commit_id");
  mret {|
    CreateDeploymentInput.ApplicationName := aws.String applicationName;
    CreateDeploymentInput.DeploymentGroupName := aws.String deploymentGroupName;
    CreateDeploymentInput.Revision := Some {|
      RevisionLocation.RevisionType := codedeployTypes.RevisionLocationTypeGitHub;
      RevisionLocation.S3Location := None;
      RevisionLocation.GitHubLocation := Some {|
        GitHubLocation.Repository := aws.String repository;
        GitHubLocation.CommitId := aws.String commitId |};
      RevisionLocation.AppSpecContent := None |} |}.

Definition prepareDeploymentInputWithAppSpecContent
    (applicationName deploymentGroupName : string) (appSpecContent : gmap string any)
  : outcome CreateDeploymentInput.t :=
  content ← assertString (mapIndex appSpecContent "content");
  sha256Hash ←
    match mapIndex appSpecContent "sha256" with
    | ANil => mret (hex.EncodeToString (sha256.Sum256 (bytes_of content)))
    | v => assertString v
    end;
  mret {|
    CreateDeploymentInput.ApplicationName := aws.String applicationName;
    CreateDeploymentInput.DeploymentGroupName := aws.String deploymentGroupName;
    CreateDeploymentInput.Revision := Some {|
      RevisionLocation.RevisionType := codedeployTypes.RevisionLocationTypeAppSpecContent;
      RevisionLocation.S3Location := None;
      RevisionLocation.GitHubLocation := None;
      RevisionLocation.AppSpecContent := Some {|
        AppSpecContent.Content := aws.String content;
        AppSpecContent.Sha256 := aws.String sha256Hash |} |} |}.

(** [revision[key].([]any)[0].(map[string]any)]: the one nested block. *)
Definition nestedBlock (revision : gmap string any) (key : string)
  : outcome (gmap string any) :=
  l ← assertSlice (mapIndex revision key);
  e ← sliceIndex l 0;
  assertMap e.

(** The [switch revisionType] of [resourceDeploymentCreate]: [input] starts
    as the zero value and no case is a default. *)
Definition dispatch (applicationName deploymentGroupName : string)
    (revision : gmap string any) (revisionType : string)
  : outcome CreateDeploymentInput.t :=
  if String.eqb revisionType codedeployTypes.RevisionLocationTypeS3 then
    s3Location ← nestedBlock revision "s3_location";
    prepareDeploymentInputWithS3Location applicationName deploymentGroupName s3Location
  else if String.eqb revisionType codedeployTypes.RevisionLocationTypeGitHub then
    githubLocation ← nestedBlock revision "github_location";
    prepareDeploymentInputWithGitHubLocation applicationName deploymentGroupName githubLocation
  else if String.eqb revisionType codedeployTypes.RevisionLocationTypeAppSpecContent then
    appSpecContent ← nestedBlock revision "appspec_content";
    prepareDeploymentInputWithAppSpecContent applicationName deploymentGroupName appSpecContent
  else
    mret CreateDeploymentInput.zero.

(** The first part of [resourceDeploymentCreate], up to the [switch]: the
    request built from the declared configuration. *)
Definition createInput (d : schema.ResourceData) : outcome CreateDeploymentInput.t :=
  applicationName ← assertString (schema.Get d "application_name");
  deploymentGroupName ← assertString (schema.Get d "deployment_group_name");
  l ← assertSlice (schema.Get d "revision");
  e ← sliceIndex l 0;
  revision ← assertMap e;
  revisionType ← assertString (mapIndex revision "revision_type");
  dispatch applicationName deploymentGroupName revision revisionType.

Section Resource.
Context {Remote : Type}.
Variable svc : Client Remote.

Definition resourceDeploymentRead : M Remote diag.Diagnostics :=
  deploymentID ← dId;
  '(deployment, err) ← svcGetDeployment svc
     {| GetDeploymentInput.DeploymentId := aws.String deploymentID |};
  match err with
  | Some _ => mret (diag.FromErr err)
  | None =>
      out ← lift (deref deployment);
      info ← lift (deref (GetDeploymentOutput.DeploymentInfo out));
      setErr ← dSet "deployment_status" (ADeploymentStatus (DeploymentInfo.Status info));
      match setErr with
      | Some _ => mret (diag.FromErr err)
      | None => mret []
      end
  end.

Definition delay : Z := 15 * time.Second.

Definition resourceDeploymentCreate : M Remote diag.Diagnostics :=
  input ← (fun s => lift (createInput (data s)) s);
  '(deployment, err) ← svcCreateDeployment svc input;
  match err with
  | Some _ => mret (diag.FromErr err)
  | None =>
      created ← lift (deref deployment);
      let deploymentId := CreateDeploymentOutput.DeploymentId created in
      timeout ← dTimeout schema.TimeoutCreate;
      '(output, err) ← waiterWaitForOutput svc delay
         {| GetDeploymentInput.DeploymentId := deploymentId |}
         (time.sub timeout delay);
      match err with
      | Some _ =>
          let diags := diag.FromErr err in
          match output with
          | None =>
              v ← dGet "auto_rollback_enabled";
              autoRollback ← lift (assertBool v);
              '(_, err) ← svcStopDeployment svc
                 {| StopDeploymentInput.DeploymentId := deploymentId;
                    StopDeploymentInput.AutoRollbackEnabled := aws.Bool autoRollback |};
              match err with
              | Some _ => mret (diags ++ diag.FromErr err)
              | None => mret diags
              end
          | Some _ => mret diags
          end
      | None =>
          newId ← lift (deref deploymentId);
          dSetId newId;;
          resourceDeploymentRead
      end
  end.

Definition resourceDeploymentUpdate : M Remote diag.Diagnostics := mret [].

Definition warning (err : error) : diag.Diagnostics :=
  [ {| diag.severity := diag.Warning; diag.Summary := err |} ].

Definition resourceDeploymentDelete : M Remote diag.Diagnostics :=
  deploymentID ← dId;
  '(deployment, err) ← svcGetDeployment svc
     {| GetDeploymentInput.DeploymentId := aws.String deploymentID |};
  match err with
  | Some e => mret (warning e)
  | None =>
      out ← lift (deref deployment);
      info ← lift (deref (GetDeploymentOutput.DeploymentInfo out));
      let status := DeploymentInfo.Status info in
      if negb (String.eqb status codedeployTypes.DeploymentStatusSucceeded) &&
         negb (String.eqb status codedeployTypes.DeploymentStatusFailed) &&
         negb (String.eqb status codedeployTypes.DeploymentStatusStopped)
      then
        v ← dGet "auto_rollback_enabled";
        autoRollback ← lift (assertBool v);
        '(_, err) ← svcStopDeployment svc
           {| StopDeploymentInput.DeploymentId := DeploymentInfo.DeploymentId info;
              StopDeploymentInput.AutoRollbackEnabled := aws.Bool autoRollback |};
        match err with
        | Some e => mret (warning e)
        | None => mret []
        end
      else mret []
  end.

End Resource.

(** ** The deployment resource, previous revision

    The file before the stop-on-failure and delete logic was added: no
    [auto_rollback_enabled], a waiter delay of 30 seconds, the whole create
    timeout as the maximum wait, a read that drops the error of [d.Set], and
    a delete that does nothing. *)

Module V0.

Definition prepareDeploymentInputWithS3Location
    (applicationName deploymentGroupName : string) (s3Location : gmap string any)
  : outcome CreateDeploymentInput.t :=
  bucket ← assertString (mapIndex s3Location "bucket");
  key ← assertString (mapIndex s3Location "key");
  bundleType ← assertBundleType (mapIndex s3Location "bundle_type");
  mret {|
    CreateDeploymentInput.ApplicationName := aws.String applicationName;
    CreateDeploymentInput.DeploymentGroupName := aws.String deploymentGroupName;
    CreateDeploymentInput.Revision := Some {|
      RevisionLocation.RevisionType := codedeployTypes.RevisionLocationTypeS3;
      RevisionLocation.S3Location := Some {|
        S3Location.Bucket := aws.String bucket;
        S3Location.Key := aws.String key;
        S3Location.BundleType := bundleType |};
      RevisionLocation.GitHubLocation := None;
      RevisionLocation.AppSpecContent := None |} |}.

Definition prepareDeploymentInputWithGitHubLocation
    (applicationName deploymentGroupName : string) (githubLocation : gmap string any)
  : outcome CreateDeploymentInput.t :=
  repository ← assertString (mapIndex githubLocation "repository");
  commitId ← assertString (mapIndex githubLocation "commit_id");
  mret {|
    CreateDeploymentInput.ApplicationName := aws.String applicationName;
    CreateDeploymentInput.DeploymentGroupName := aws.String deploymentGroupName;
    CreateDeploymentInput.Revision := Some {|
      RevisionLocation.RevisionType := codedeployTypes.RevisionLocationTypeGitHub;
      RevisionLocation.S3Location := None;
      RevisionLocation.GitHubLocation := Some {|
        GitHubLocation.Repository := aws.String repository;
        GitHubLocation.CommitId := aws.String commitId |};
      RevisionLocation.AppSpecContent := None |} |}.

Definition prepareDeploymentInputWithAppSpecContent
    (applicationName deploymentGroupName : string) (appSpecContent : gmap string any)
  : outcome CreateDeploymentInput.t :=
  content ← assertString (mapIndex appSpecContent "content");
  sha256Hash ←
    match mapIndex appSpecContent "sha256" with
    | ANil => mret (hex.EncodeToString (sha256.Sum256 (bytes_of content)))
    | v => assertString v
    end;
  mret {|
    CreateDeploymentInput.ApplicationName := aws.String applicationName;
    CreateDeploymentInput.DeploymentGroupName := aws.String deploymentGroupName;
    CreateDeploymentInput.Revision := Some {|
      RevisionLocation.RevisionType := codedeployTypes.RevisionLocationTypeAppSpecContent;
      RevisionLocation.S3Location := None;
      RevisionLocation.GitHubLocation := None;
      RevisionLocation.AppSpecContent := Some {|
        AppSpecContent.Content := aws.String content;
        AppSpecContent.Sha256 := aws.String sha256Hash |} |} |}.

(** [d.Get("revision").([]interface{})[0].(map[string]interface{})], which
    this revision evaluates anew wherever it needs the block. *)
Definition revisionBlock (d : schema.ResourceData) : outcome (gmap string any) :=
  l ← assertSlice (schema.Get d "revision");
  e ← sliceIndex l 0;
  assertMap e.

Definition createInput (d : schema.ResourceData) : outcome CreateDeploymentInput.t :=
  applicationName ← assertString (schema.Get d "application_name");
  deploymentGroupName ← assertString (schema.Get d "deployment_group_name");
  revision ← revisionBlock d;
  revisionType ← assertString (mapIndex revision "revision_type");
  if String.eqb revisionType codedeployTypes.RevisionLocationTypeS3 then
    revision ← revisionBlock d;
    s3Location ← nestedBlock revision "s3_location";
    prepareDeploymentInputWithS3Location applicationName deploymentGroupName s3Location
  else if String.eqb revisionType codedeployTypes.RevisionLocationTypeGitHub then
    revision ← revisionBlock d;
    githubLocation ← nestedBlock revision "github_location";
    prepareDeploymentInputWithGitHubLocation applicationName deploymentGroupName githubLocation
  else if String.eqb revisionType codedeployTypes.RevisionLocationTypeAppSpecContent then
    revision ← revisionBlock d;
    appSpecContent ← nestedBlock revision "appspec_content";
    prepareDeploymentInputWithAppSpecContent applicationName deploymentGroupName appSpecContent
  else
    mret CreateDeploymentInput.zero.

Section Resource.
Context {Remote : Type}.
Variable svc : Client Remote.

Definition resourceDeploymentRead : M Remote diag.Diagnostics :=
  deploymentID ← dId;
  '(res, err) ← svcGetDeployment svc
     {| GetDeploymentInput.DeploymentId := aws.String deploymentID |};
  match err with
  | Some _ => mret (diag.FromErr err)
  | None =>
      out ← lift (deref res);
      info ← lift (deref (GetDeploymentOutput.DeploymentInfo out));
      dSet "deployment_status" (ADeploymentStatus (DeploymentInfo.Status info));;
      mret []
  end.

Definition resourceDeploymentCreate : M Remote diag.Diagnostics :=
  input ← (fun s => lift (createInput (data s)) s);
  '(res, err) ← svcCreateDeployment svc input;
  match err with
  | Some _ => mret (diag.FromErr err)
  | None =>
      created ← lift (deref res);
      let deploymentId := CreateDeploymentOutput.DeploymentId created in
      timeout ← dTimeout schema.TimeoutCreate;
      '(_, err) ← waiterWaitForOutput svc (30 * time.Second)
         {| GetDeploymentInput.DeploymentId := deploymentId |} timeout;
      match err with
      | Some _ => mret (diag.FromErr err)
      | None =>
          newId ← lift (deref deploymentId);
          dSetId newId;;
          resourceDeploymentRead
      end
  end.

Definition resourceDeploymentDelete : M Remote diag.Diagnostics := mret [].

End Resource.

End V0.

(** ** Observations on requests, digests and logs *)

(** The hash a request carries for its inline content, if any. *)
Definition sha256Of (input : CreateDeploymentInput.t) : option string :=
  rev ← CreateDeploymentInput.Revision input;
  spec ← RevisionLocation.AppSpecContent rev;
  AppSpecContent.Sha256 spec.

(** Every character is one of [hex.hextable]. *)
Definition isLowerHex (s : string) : bool :=
  forallb (fun c => existsb (Ascii.eqb c) (String.list_ascii_of_string hex.hextable))
          (String.list_ascii_of_string s).

(** The status fetch that read and delete make for the stored identity. *)
Definition fetchOf (d : schema.ResourceData) : Call :=
  CallGetDeployment {| GetDeploymentInput.DeploymentId := aws.String (schema.id d) |}.

(** The Stop calls of a log. *)
Definition stopCalls (l : list Call) : list Call := List.filter isStop l.

(** ** Scenarios

    A scripted client (every operation answers with a fixed result) and
    concrete resource data, to run the operations on. *)

Definition scripted
    (created : result CreateDeploymentOutput.t)
    (waited fetched : result GetDeploymentOutput.t)
    (stopped : result StopDeploymentOutput.t) : Client unit :=
  {| CreateDeployment := fun _ r => (created, r);
     GetDeployment := fun _ r => (fetched, r);
     StopDeployment := fun _ r => (stopped, r);
     WaitForOutput := fun _ _ _ r => (waited, r) |}.

Definition s3Block : gmap string any :=
  list_to_map [ ("bucket", AString "releases"); ("key", AString "app.zip");
                ("bundle_type", ABundleType "zip") ].
Definition githubBlock : gmap string any :=
  list_to_map [ ("repository", AString "org/app"); ("commit_id", AString "0a1b2c3") ].
Definition appSpecBlock : gmap string any :=
  list_to_map [ ("content", AString "abc") ].
Definition appSpecBlockHashed (h : string) : gmap string any :=
  list_to_map [ ("content", AString "abc"); ("sha256", AString h) ].

Definition revisionOf (revisionType key : string) (block : gmap string any)
  : gmap string any :=
  list_to_map [ ("revision_type", AString revisionType); (key, ASlice [AMap block]) ].

Definition configOf (revision : gmap string any) : gmap string any :=
  list_to_map [ ("application_name", AString "app");
                ("deployment_group_name", AString "fleet");
                ("revision", ASlice [AMap revision]);
                ("auto_rollback_enabled", ABool true) ].

Definition accepting : string -> any -> option error := fun _ _ => None.
Definition rejecting : string -> any -> option error :=
  fun _ _ => Some "deployment_status: invalid value".

Definition dataOf (ident : string) (revision : gmap string any)
    (w : string -> any -> option error) : schema.ResourceData :=
  {| schema.id := ident;
     schema.attrs := configOf revision;
     schema.timeouts := {[ schema.TimeoutCreate := 60 * time.Minute ]};
     schema.writer := w |}.

Definition githubData : schema.ResourceData :=
  dataOf "" (revisionOf "GitHub" "github_location" githubBlock) accepting.

Definition start (d : schema.ResourceData) : State unit :=
  Build_State d tt [].

Definition createdAs (ident : string) : result CreateDeploymentOutput.t :=
  (Some {| CreateDeploymentOutput.DeploymentId := Some ident |}, None).
Definition recordOf (ident status : string) : GetDeploymentOutput.t :=
  {| GetDeploymentOutput.DeploymentInfo :=
       Some {| DeploymentInfo.DeploymentId := Some ident; DeploymentInfo.Status := status |} |}.
Definition stoppedOk : result StopDeploymentOutput.t :=
  (Some {| StopDeploymentOutput.Status := "Pending";
           StopDeploymentOutput.StatusMessage := None |}, None).

Definition storedData : schema.ResourceData :=
  dataOf "d-123" (revisionOf "GitHub" "github_location" githubBlock) accepting.
Definition unwritableData : schema.ResourceData :=
  dataOf "d-123" (revisionOf "GitHub" "github_location" githubBlock) rejecting.
Definition unknownTypeData : schema.ResourceData :=
  dataOf "" (revisionOf "Mercurial" "github_location" githubBlock) accepting.

Definition githubInput : CreateDeploymentInput.t :=
  {| CreateDeploymentInput.ApplicationName := Some "app";
     CreateDeploymentInput.DeploymentGroupName := Some "fleet";
     CreateDeploymentInput.Revision := Some {|
       RevisionLocation.RevisionType := "GitHub";
       RevisionLocation.S3Location := None;
       RevisionLocation.GitHubLocation := Some {|
         GitHubLocation.Repository := Some "org/app";
         GitHubLocation.CommitId := Some "0a1b2c3" |};
       RevisionLocation.AppSpecContent := None |} |}.

Definition waitExceeded : error := "exceeded max wait time for DeploymentSuccessful waiter".
Definition unreachable : error := "RequestError: send request failed".
Definition notStoppable : error := "DeploymentAlreadyCompletedException".

(** Submit gives d-456 and the wait fails without an output; Stop fails too. *)
Definition timedOutUnobserved : Client unit :=
  scripted (createdAs "d-456") (None, Some waitExceeded)
           (Some (recordOf "d-456" "InProgress"), None) (None, Some notStoppable).
(** Submit gives d-456, the deployment stays in progress and the wait runs
    out of its budget (the waiter returns no output with its error); Stop
    succeeds. *)
Definition timedOutInProgress : Client unit :=
  scripted (createdAs "d-456") (None, Some waitExceeded)
           (Some (recordOf "d-456" "InProgress"), None) stoppedOk.
(** Submit gives d-123, the wait succeeds, the fetch of read fails. *)
Definition unreachableAfterWait : Client unit :=
  scripted (createdAs "d-123") (Some (recordOf "d-123" "Succeeded"), None)
           (None, Some unreachable) stoppedOk.
(** Submit gives d-123, the wait and the fetch of read succeed. *)
Definition succeeding : Client unit :=
  scripted (createdAs "d-123") (Some (recordOf "d-123" "Succeeded"), None)
           (Some (recordOf "d-123" "Succeeded"), None) stoppedOk.
(** Submit is refused. *)
Definition refusing : Client unit :=
  scripted (None, Some "DeploymentLimitExceededException")
           (None, Some waitExceeded) (None, Some unreachable) stoppedOk.
(** The deployment d-123 is fetched with the given status; Stop answers as given. *)
Definition fetching (status : string) (stopped : result StopDeploymentOutput.t)
  : Client unit :=
  scripted (createdAs "d-123") (Some (recordOf "d-123" status), None)
           (Some (recordOf "d-123" status), None) stopped.

(** ** The schema's validators and the provider's configuration *)

Module validation.

(** The errors of [validation.StringInSlice], by the arguments of their
    format: "expected type of %s to be string" and "expected %s to be one
    of %q, got %s". *)
Inductive failure : Type :=
| ExpectedString (k : string)
| ExpectedOneOf (k : string) (valid : list string) (v : string).

(** [validation.StringInSlice(valid, false)], as both uses in the schema
    have it: the warnings and the errors for the value [i] of attribute
    [k]. *)
Definition StringInSlice (valid : list string) (i : any) (k : string)
  : list string * list failure :=
  match i with
  | AString v =>
      if existsb (String.eqb v) valid then ([], [])
      else ([], [ExpectedOneOf k valid v])
  | _ => ([], [ExpectedString k])
  end.

End validation.

(** The [ValidateFunc] of [revision_type] and of [bundle_type] in
    [resourceDeployment]. *)
Definition revisionTypeValidateFunc : any -> string -> list string * list validation.failure :=
  validation.StringInSlice
    [ codedeployTypes.RevisionLocationTypeS3;
      codedeployTypes.RevisionLocationTypeGitHub;
      codedeployTypes.RevisionLocationTypeAppSpecContent ].
Definition bundleTypeValidateFunc : any -> string -> list string * list validation.failure :=
  validation.StringInSlice [ "zip"; "tar" ].

Module config.
(** The options [providerConfigure] passes to [config.LoadDefaultConfig]. *)
Inductive LoadOption : Type :=
| WithRegion (region : string)
| WithRetryMode (mode : string).
End config.

Section Provider.
Context {Config ClientT : Type}.
(** [config.LoadDefaultConfig] and [codedeploy.NewFromConfig]. *)
Variable LoadDefaultConfig : list config.LoadOption -> Config * option error.
Variable NewFromConfig : Config -> ClientT.

(** [providerConfigure]: the client, or nil with the diagnostics of the
    error. *)
Definition providerConfigure (d : schema.ResourceData)
  : outcome (option ClientT * diag.Diagnostics) :=
  region ← assertString (schema.Get d "region");
  let diags : diag.Diagnostics := [] in
  let '(cfg, err) :=
    LoadDefaultConfig [ config.WithRegion region;
                        config.WithRetryMode aws.RetryModeAdaptive ] in
  match err with
  | Some _ => mret (None, diag.FromErr err)
  | None => mret (Some (NewFromConfig cfg), diags)
  end.

End Provider.

(** A loader that fails outside the regions it knows, and the provider
    data of a region. *)
Definition knownRegions (opts : list config.LoadOption) : string * option error :=
  match opts with
  | config.WithRegion r :: _ =>
      if String.eqb r "eu-west-1" then (r, None) else (r, Some "unknown region")
  | _ => ("", Some "no region")
  end.
Definition providerData (region : any) : schema.ResourceData :=
  {| schema.id := "";
     schema.attrs := {[ "region" := region ]};
     schema.timeouts := ∅;
     schema.writer := accepting |}.

(** An S3 block as the schema accepts it and [d.Get] hands it over, with
    [bundle_type] a plain string, and the resource data of that revision. *)
Definition s3SchemaBlock : gmap string any :=
  list_to_map [ ("bucket", AString "releases"); ("key", AString "app.zip");
                ("bundle_type", AString "zip") ].
Definition s3SchemaData : schema.ResourceData :=
  dataOf "" (revisionOf "S3" "s3_location" s3SchemaBlock) accepting.

(** Further resource data and clients: a create timeout of ten seconds; an
    S3 discriminator with no S3 block, and with an empty one; a service
    that answers without a record; a Submit that returns no id. *)
Definition shortTimeoutData : schema.ResourceData :=
  {| schema.id := "";
     schema.attrs := configOf (revisionOf "GitHub" "github_location" githubBlock);
     schema.timeouts := {[ schema.TimeoutCreate := 10 * time.Second ]};
     schema.writer := accepting |}.
Definition blocklessData : schema.ResourceData :=
  dataOf "" (revisionOf "S3" "github_location" githubBlock) accepting.
Definition emptyBlockData : schema.ResourceData :=
  dataOf ""
    (list_to_map [ ("revision_type", AString "S3"); ("s3_location", ASlice []) ])
    accepting.
Definition recordless (fetched : option GetDeploymentOutput.t) : Client unit :=
  scripted (createdAs "d-123") (Some (recordOf "d-123" "Succeeded"), None)
           (fetched, None) stoppedOk.
Definition idless : Client unit :=
  scripted (Some {| CreateDeploymentOutput.DeploymentId := None |}, None)
           (Some (recordOf "d-123" "Succeeded"), None)
           (Some (recordOf "d-123" "Succeeded"), None) stoppedOk.

(** * Properties *)


(** ** The digest *)

Example constants_first_and_last :
  length sha256._K = 64%nat
  /\ head sha256._K = Some 0x428a2f98
  /\ last sha256._K = Some 0xc67178f2
  /\ length sha256.init = 8%nat
  /\ head sha256.init = Some 0x6a09e667
  /\ last sha256.init = Some 0x5be0cd19.
Proof. vm_compute. repeat split. Qed.

Example sum256_abc :
  hex.EncodeToString (sha256.Sum256 (bytes_of "abc"))
  = "ba7816bf8f01cfea414140de5dae2223b00361a396177a9cb410ff61f20015ad"%string.
Proof. vm_compute. reflexivity. Qed.

Example sum256_empty :
  hex.EncodeToString (sha256.Sum256 (bytes_of ""))
  = "e3b0c44298fc1c149afbf4c8996fb92427ae41e4649b934ca495991b7852b855"%string.
Proof. vm_compute. reflexivity. Qed.

Example sum256_two_blocks :
  hex.EncodeToString (sha256.Sum256
    (bytes_of "abcdbcdecdefdefgefghfghighijhijkijkljklmklmnlmnomnopnopq"))
  = "248d6a61d20638b8e5c026930c3e6039a33ce45964ff2167f6ecedd419db06c1"%string.
Proof. vm_compute. reflexivity. Qed.

Lemma block_length h chunk : length h = 8%nat -> length (sha256.block h chunk) = 8%nat.
Proof.
  intros Hh. unfold sha256.block. rewrite length_zip_with. rewrite Hh. reflexivity.
Qed.

Lemma blocks_length n : forall h bs, length h = 8%nat -> length (sha256.blocks n h bs) = 8%nat.
Proof.
  induction n as [|n IH]; intros h bs Hh; simpl; [assumption|].
  apply IH, block_length, Hh.
Qed.

Lemma be32_concat_length (l : list Z) :
  length (concat (sha256.be32 <$> l)) = (4 * length l)%nat.
Proof.
  induction l as [|x l IH]; [reflexivity|].
  rewrite fmap_cons. simpl concat. simpl length. rewrite IH. lia.
Qed.

Lemma Sum256_length data : length (sha256.Sum256 data) = 32%nat.
Proof.
  unfold sha256.Sum256. rewrite be32_concat_length, blocks_length; reflexivity.
Qed.

Lemma EncodeToString_length src :
  String.length (hex.EncodeToString src) = (2 * length src)%nat.
Proof.
  induction src as [|v src IH]; [reflexivity|].
  simpl hex.EncodeToString. simpl String.length. simpl length. rewrite IH. lia.
Qed.

Lemma digit_in_hextable v :
  existsb (Ascii.eqb (hex.digit v)) (String.list_ascii_of_string hex.hextable) = true.
Proof.
  unfold hex.digit. generalize (Z.to_nat v) as n. intros n.
  do 16 (destruct n as [|n]; [reflexivity|]). reflexivity.
Qed.

Lemma EncodeToString_lower_hex src : isLowerHex (hex.EncodeToString src) = true.
Proof.
  unfold isLowerHex. induction src as [|v src IH]; [reflexivity|].
  simpl hex.EncodeToString. simpl String.list_ascii_of_string.
  cbn [forallb]. rewrite !digit_in_hextable. exact IH.
Qed.

(** ** The revision resolver *)

Lemma mapIndex_lookup (m : gmap string any) k v :
  m !! k = Some v -> mapIndex m k = v.
Proof. unfold mapIndex. intros ->. reflexivity. Qed.

Lemma mapIndex_missing (m : gmap string any) k :
  m !! k = None -> mapIndex m k = ANil.
Proof. unfold mapIndex. intros ->. reflexivity. Qed.

(** On a block whose fields have the asserted types each resolver returns,
    and returns exactly the request of its composite literal. *)
Lemma prepare_S3_returns app grp (m : gmap string any) bucket key bundle :
  mapIndex m "bucket" = AString bucket ->
  mapIndex m "key" = AString key ->
  mapIndex m "bundle_type" = ABundleType bundle ->
  prepareDeploymentInputWithS3Location app grp m = Returned {|
    CreateDeploymentInput.ApplicationName := Some app;
    CreateDeploymentInput.DeploymentGroupName := Some grp;
    CreateDeploymentInput.Revision := Some {|
      RevisionLocation.RevisionType := "S3";
      RevisionLocation.S3Location := Some {|
        S3Location.Bucket := Some bucket;
        S3Location.Key := Some key;
        S3Location.BundleType := bundle |};
      RevisionLocation.GitHubLocation := None;
      RevisionLocation.AppSpecContent := None |} |}.
Proof.
  intros Hb Hk Ht. unfold prepareDeploymentInputWithS3Location.
  rewrite Hb, Hk, Ht. reflexivity.
Qed.

Lemma prepare_GitHub_returns app grp (m : gmap string any) repository commit :
  mapIndex m "repository" = AString repository ->
  mapIndex m "commit_id" = AString commit ->
  prepareDeploymentInputWithGitHubLocation app grp m = Returned {|
    CreateDeploymentInput.ApplicationName := Some app;
    CreateDeploymentInput.DeploymentGroupName := Some grp;
    CreateDeploymentInput.Revision := Some {|
      RevisionLocation.RevisionType := "GitHub";
      RevisionLocation.S3Location := None;
      RevisionLocation.GitHubLocation := Some {|
        GitHubLocation.Repository := Some repository;
        GitHubLocation.CommitId := Some commit |};
      RevisionLocation.AppSpecContent := None |} |}.
Proof.
  intros Hr Hc. unfold prepareDeploymentInputWithGitHubLocation.
  rewrite Hr, Hc. reflexivity.
Qed.

(** A block as the schema layer hands it over, with [bundle_type] a plain
    [string], makes the S3 resolver panic: the type asserted is the SDK's
    [BundleType]. *)
Lemma prepare_S3_string_bundle_type_panics app grp (m : gmap string any) bucket key bundle :
  mapIndex m "bucket" = AString bucket ->
  mapIndex m "key" = AString key ->
  mapIndex m "bundle_type" = AString bundle ->
  prepareDeploymentInputWithS3Location app grp m = Panicked InterfaceConversion.
Proof.
  intros Hb Hk Ht. unfold prepareDeploymentInputWithS3Location.
  rewrite Hb, Hk, Ht. reflexivity.
Qed.

(** So the dispatch does resolve a request for each tag, given the one
    nested block of that tag with fields of the asserted types. *)
Lemma dispatch_S3_returns app grp (revision block : gmap string any) bucket key bundle :
  nestedBlock revision "s3_location" = Returned block ->
  mapIndex block "bucket" = AString bucket ->
  mapIndex block "key" = AString key ->
  mapIndex block "bundle_type" = ABundleType bundle ->
  exists input,
    dispatch app grp revision codedeployTypes.RevisionLocationTypeS3 = Returned input.
Proof.
  intros Hn Hb Hk Ht. unfold dispatch. cbn [String.eqb Ascii.eqb Bool.eqb].
  rewrite Hn. cbn [mbind outcome_bind].
  rewrite (prepare_S3_returns app grp block bucket key bundle Hb Hk Ht).
  eexists. reflexivity.
Qed.

Lemma dispatch_GitHub_returns app grp (revision block : gmap string any) repository commit :
  nestedBlock revision "github_location" = Returned block ->
  mapIndex block "repository" = AString repository ->
  mapIndex block "commit_id" = AString commit ->
  exists input,
    dispatch app grp revision codedeployTypes.RevisionLocationTypeGitHub = Returned input.
Proof.
  intros Hn Hr Hc. unfold dispatch. cbn [String.eqb Ascii.eqb Bool.eqb].
  rewrite Hn. cbn [mbind outcome_bind].
  rewrite (prepare_GitHub_returns app grp block repository commit Hr Hc).
  eexists. reflexivity.
Qed.

Lemma dispatch_AppSpecContent_returns app grp (revision block : gmap string any) content :
  nestedBlock revision "appspec_content" = Returned block ->
  mapIndex block "content" = AString content ->
  (mapIndex block "sha256" = ANil \/ exists h, mapIndex block "sha256" = AString h) ->
  exists input,
    dispatch app grp revision codedeployTypes.RevisionLocationTypeAppSpecContent
    = Returned input.
Proof.
  intros Hn Hc Hh. unfold dispatch. cbn [String.eqb Ascii.eqb Bool.eqb].
  rewrite Hn. cbn [mbind outcome_bind].
  unfold prepareDeploymentInputWithAppSpecContent. rewrite Hc.
  destruct Hh as [-> | [h ->]]; eexists; reflexivity.
Qed.

Ltac outcome_cases :=
  repeat match goal with
    | H : context [mbind _ ?x] |- _ =>
        lazymatch x with
        | context [mbind] => fail
        | _ => destruct x eqn:?; cbn [mbind outcome_bind] in H
        end
    | H : Panicked _ = Returned _ |- _ => discriminate H
    end.

(** Whenever the dispatch returns a request for one of the three
    discriminators, that request has a revision whose [revision_type] is the
    discriminator, with the variant of that discriminator populated and the
    other two nil. *)
Theorem dispatch_populates_matching_variant
    app grp (revision : gmap string any) revisionType input :
  revisionType = codedeployTypes.RevisionLocationTypeS3
  \/ revisionType = codedeployTypes.RevisionLocationTypeGitHub
  \/ revisionType = codedeployTypes.RevisionLocationTypeAppSpecContent ->
  dispatch app grp revision revisionType = Returned input ->
  exists rev,
    CreateDeploymentInput.Revision input = Some rev
    /\ RevisionLocation.RevisionType rev = revisionType
    /\ (is_Some (RevisionLocation.S3Location rev)
        <-> revisionType = codedeployTypes.RevisionLocationTypeS3)
    /\ (is_Some (RevisionLocation.GitHubLocation rev)
        <-> revisionType = codedeployTypes.RevisionLocationTypeGitHub)
    /\ (is_Some (RevisionLocation.AppSpecContent rev)
        <-> revisionType = codedeployTypes.RevisionLocationTypeAppSpecContent).
Proof.
  unfold codedeployTypes.RevisionLocationTypeS3, codedeployTypes.RevisionLocationTypeGitHub,
    codedeployTypes.RevisionLocationTypeAppSpecContent.
  intros [-> | [-> | ->]] Hd; unfold dispatch in Hd;
    unfold codedeployTypes.RevisionLocationTypeS3, codedeployTypes.RevisionLocationTypeGitHub,
      codedeployTypes.RevisionLocationTypeAppSpecContent in Hd;
    cbn [String.eqb Ascii.eqb Bool.eqb] in Hd;
    unfold prepareDeploymentInputWithS3Location, prepareDeploymentInputWithGitHubLocation,
      prepareDeploymentInputWithAppSpecContent in Hd;
    outcome_cases; injection Hd as <-;
    (eexists; split; [reflexivity|]); cbn;
    unfold codedeployTypes.RevisionLocationTypeS3, codedeployTypes.RevisionLocationTypeGitHub,
      codedeployTypes.RevisionLocationTypeAppSpecContent;
    repeat split; try done; intros H;
    try discriminate H; try (destruct H as [? H']; discriminate H'); by eexists.
Qed.

Lemma dispatch_populates_matching_variant_witness :
  (exists rev,
      CreateDeploymentInput.Revision
        {| CreateDeploymentInput.ApplicationName := Some "app";
           CreateDeploymentInput.DeploymentGroupName := Some "fleet";
           CreateDeploymentInput.Revision := Some {|
             RevisionLocation.RevisionType := "GitHub";
             RevisionLocation.S3Location := None;
             RevisionLocation.GitHubLocation := Some {|
               GitHubLocation.Repository := Some "org/app";
               GitHubLocation.CommitId := Some "0a1b2c3" |};
             RevisionLocation.AppSpecContent := None |} |} = Some rev
      /\ RevisionLocation.RevisionType rev = "GitHub"
      /\ (is_Some (RevisionLocation.S3Location rev)
          <-> "GitHub" = codedeployTypes.RevisionLocationTypeS3)
      /\ (is_Some (RevisionLocation.GitHubLocation rev)
          <-> "GitHub" = codedeployTypes.RevisionLocationTypeGitHub)
      /\ (is_Some (RevisionLocation.AppSpecContent rev)
          <-> "GitHub" = codedeployTypes.RevisionLocationTypeAppSpecContent)).
Proof.
  apply (dispatch_populates_matching_variant "app" "fleet"
           (revisionOf "GitHub" "github_location" githubBlock) "GitHub").
  - right; left; reflexivity.
  - vm_compute. reflexivity.
Defined.

(** C7.  The claim fails on the code for the S3 discriminator.  On an S3
    block that passes the schema's validation ([bundle_type] the string zip)
    no request is resolved at all: the dispatch panics on the assertion of
    the SDK's [BundleType], and create panics with it before any call is
    made.  For GitHub and AppSpecContent the resolved request is as the
    claim says. *)
Theorem validated_S3_revision_resolves_no_request :
  bundleTypeValidateFunc (mapIndex s3SchemaBlock "bundle_type") "bundle_type" = ([], [])
  /\ revisionTypeValidateFunc (AString "S3") "revision_type" = ([], [])
  /\ dispatch "app" "fleet" (revisionOf "S3" "s3_location" s3SchemaBlock)
       codedeployTypes.RevisionLocationTypeS3
     = Panicked InterfaceConversion
  /\ createInput s3SchemaData = Panicked InterfaceConversion
  /\ resourceDeploymentCreate succeeding (start s3SchemaData)
     = (Panicked InterfaceConversion, start s3SchemaData).
Proof. repeat split; vm_compute; reflexivity. Qed.

(** The dispatch on blocks whose fields have the asserted dynamic types,
    run on concrete blocks. *)
Example dispatch_S3_run :
  dispatch "app" "fleet" (revisionOf "S3" "s3_location" s3Block) "S3" = Returned {|
    CreateDeploymentInput.ApplicationName := Some "app";
    CreateDeploymentInput.DeploymentGroupName := Some "fleet";
    CreateDeploymentInput.Revision := Some {|
      RevisionLocation.RevisionType := "S3";
      RevisionLocation.S3Location := Some {|
        S3Location.Bucket := Some "releases";
        S3Location.Key := Some "app.zip";
        S3Location.BundleType := "zip" |};
      RevisionLocation.GitHubLocation := None;
      RevisionLocation.AppSpecContent := None |} |}.
Proof. vm_compute. reflexivity. Qed.

Example dispatch_AppSpecContent_run :
  dispatch "app" "fleet" (revisionOf "AppSpecContent" "appspec_content" appSpecBlock)
    "AppSpecContent" = Returned {|
    CreateDeploymentInput.ApplicationName := Some "app";
    CreateDeploymentInput.DeploymentGroupName := Some "fleet";
    CreateDeploymentInput.Revision := Some {|
      RevisionLocation.RevisionType := "AppSpecContent";
      RevisionLocation.S3Location := None;
      RevisionLocation.GitHubLocation := None;
      RevisionLocation.AppSpecContent := Some {|
        AppSpecContent.Content := Some "abc";
        AppSpecContent.Sha256 :=
          Some "ba7816bf8f01cfea414140de5dae2223b00361a396177a9cb410ff61f20015ad" |} |} |}.
Proof. vm_compute. reflexivity. Qed.

(** The dispatch never looks at the blocks of the other variants: a block
    for a different tag than the discriminator is ignored, and a missing
    block for the discriminator is a panic. *)
Example dispatch_missing_block_panics :
  dispatch "app" "fleet" (revisionOf "S3" "github_location" githubBlock) "S3"
  = Panicked InterfaceConversion.
Proof. vm_compute. reflexivity. Qed.

(** What the inline-content resolver does with the hash.  With the
    [sha256] field absent from the block (or nil) the request carries the
    lowercase hexadecimal SHA-256 digest of the content's bytes, 64
    characters; with the field a string the request carries that string as
    it is. *)
Theorem appspec_hash_computed_or_passed_through
    app grp (appSpecContent : gmap string any) content :
  mapIndex appSpecContent "content" = AString content ->
  (appSpecContent !! "sha256" = None \/ appSpecContent !! "sha256" = Some ANil ->
     exists input digest,
       prepareDeploymentInputWithAppSpecContent app grp appSpecContent = Returned input
       /\ sha256Of input = Some digest
       /\ digest = hex.EncodeToString (sha256.Sum256 (bytes_of content))
       /\ String.length digest = 64%nat
       /\ isLowerHex digest = true)
  /\ (forall supplied,
        appSpecContent !! "sha256" = Some (AString supplied) ->
        exists input,
          prepareDeploymentInputWithAppSpecContent app grp appSpecContent = Returned input
          /\ sha256Of input = Some supplied).
Proof.
  intros Hc. unfold prepareDeploymentInputWithAppSpecContent. rewrite Hc. split.
  - intros Hunset.
    assert (mapIndex appSpecContent "sha256" = ANil) as ->.
    { destruct Hunset as [H | H];
        [apply mapIndex_missing, H | apply mapIndex_lookup, H]. }
    eexists _, _. split; [reflexivity|]. split; [reflexivity|]. split; [reflexivity|].
    split; [|apply EncodeToString_lower_hex].
    rewrite EncodeToString_length, Sum256_length. reflexivity.
  - intros supplied Hs. rewrite (mapIndex_lookup _ _ _ Hs).
    eexists. split; reflexivity.
Qed.

Lemma appspec_hash_computed_or_passed_through_witness :
  (exists input digest,
      prepareDeploymentInputWithAppSpecContent "app" "fleet" appSpecBlock = Returned input
      /\ sha256Of input = Some digest
      /\ digest = hex.EncodeToString (sha256.Sum256 (bytes_of "abc"))
      /\ String.length digest = 64%nat
      /\ isLowerHex digest = true)
  /\ (exists input,
        prepareDeploymentInputWithAppSpecContent "app" "fleet" (appSpecBlockHashed "00ff")
          = Returned input
        /\ sha256Of input = Some "00ff").
Proof.
  split.
  - apply (appspec_hash_computed_or_passed_through "app" "fleet" appSpecBlock "abc").
    + vm_compute. reflexivity.
    + left. vm_compute. reflexivity.
  - apply (appspec_hash_computed_or_passed_through "app" "fleet"
             (appSpecBlockHashed "00ff") "abc").
    + vm_compute. reflexivity.
    + vm_compute. reflexivity.
Defined.

(** C3.  The claim fails on the code for an unset or explicitly empty
    hash.  The test of the resolver is [appSpecContent["sha256"] == nil],
    and an omitted or empty hash reaches it as the empty string: the request
    then carries the empty string, not the digest of the content that the
    claim (and the branch the test guards) calls for. *)
Theorem appspec_empty_hash_not_digested :
  appSpecBlockHashed "" !! "sha256" = Some (AString "")
  /\ exists input,
      prepareDeploymentInputWithAppSpecContent "app" "fleet" (appSpecBlockHashed "")
        = Returned input
      /\ sha256Of input = Some ""
      /\ hex.EncodeToString (sha256.Sum256 (bytes_of "abc"))
         = "ba7816bf8f01cfea414140de5dae2223b00361a396177a9cb410ff61f20015ad"
      /\ sha256Of input <> Some (hex.EncodeToString (sha256.Sum256 (bytes_of "abc"))).
Proof.
  split; [vm_compute; reflexivity|].
  eexists. split; [vm_compute; reflexivity|]. split; [reflexivity|].
  split; [vm_compute; reflexivity|].
  vm_compute. discriminate.
Qed.

(** An explicit hash is not compared with the content. *)
Example appspec_wrong_hash_passed_through :
  (input ← prepareDeploymentInputWithAppSpecContent "app" "fleet" (appSpecBlockHashed "00ff");
   mret (sha256Of input)) = Returned (Some "00ff").
Proof. vm_compute. reflexivity. Qed.

(** C9.  The three resolvers of the previous and of the current revision
    of the file agree on every application name, group name and block:
    same request, or same panic. *)
Theorem prepare_functions_unchanged app grp (block : gmap string any) :
  V0.prepareDeploymentInputWithS3Location app grp block
    = prepareDeploymentInputWithS3Location app grp block
  /\ V0.prepareDeploymentInputWithGitHubLocation app grp block
    = prepareDeploymentInputWithGitHubLocation app grp block
  /\ V0.prepareDeploymentInputWithAppSpecContent app grp block
    = prepareDeploymentInputWithAppSpecContent app grp block.
Proof. repeat split. Qed.

(** ** The lifecycle operations *)

Lemma sub_exact a b :
  - 2 ^ 63 <= a - b < 2 ^ 63 -> time.sub a b = a - b.
Proof.
  intros H. unfold time.sub, time.wrap64.
  rewrite Z.mod_small; lia.
Qed.

Section Lifecycle.
Context {Remote : Type}.
Variable svc : Client Remote.

Ltac unfold_ops :=
  unfold resourceDeploymentCreate, resourceDeploymentRead, resourceDeploymentDelete,
    V0.resourceDeploymentCreate, V0.resourceDeploymentRead,
    svcCreateDeployment, svcGetDeployment, svcStopDeployment, waiterWaitForOutput,
    call, dId, dGet, dSet, dSetId, dTimeout, lift, deref, assertBool, fetchOf,
    aws.String, aws.Bool, schema.Set_, mbind, M_bind, mret, M_ret.
Ltac step := cbn [data remote calls schema.id schema.attrs schema.writer schema.SetId].
Ltac branch :=
  repeat (step; match goal with
                | |- context [match ?x with _ => _ end] =>
                    lazymatch x with
                    | context [match _ with _ => _ end] => fail
                    | _ => destruct x eqn:?
                    end
                end).

(** C5.  When the status fetch of delete errors, delete returns one
    diagnostic, a warning with the text of the fetch error, and nothing of
    severity error; the fetch is the only call made, so no Stop is issued;
    the resource data is untouched. *)
Theorem delete_fetch_error_warns (s : State Remote) out e r1 :
  GetDeployment svc
    {| GetDeploymentInput.DeploymentId := Some (schema.id (data s)) |} (remote s)
    = ((out, Some e), r1) ->
  exists diags s',
    resourceDeploymentDelete svc s = (Returned diags, s')
    /\ diags = [ {| diag.severity := diag.Warning; diag.Summary := e |} ]
    /\ diag.HasError diags = false
    /\ calls s' = calls s ++ [fetchOf (data s)]
    /\ stopCalls (calls s') = stopCalls (calls s)
    /\ data s' = data s.
Proof.
  intros Hget. unfold_ops. rewrite Hget. step.
  eexists _, _. split; [reflexivity|]. step.
  repeat split. unfold stopCalls. rewrite List.filter_app. apply app_nil_r.
Qed.

(** C4.  When the status fetch of delete succeeds with a deployment
    record: on a status of Succeeded, Failed or Stopped delete makes no
    further call and returns no diagnostics; on any other status it calls
    Stop once, with the deployment id (the record fetched by the stored id
    carries that id) and the configured rollback flag, and returns no
    diagnostics when Stop succeeds and one warning with the text of the
    error when it fails.  In no case is a diagnostic of severity error
    returned. *)
Theorem delete_stops_unless_terminal (s : State Remote) out info r1 :
  GetDeployment svc
    {| GetDeploymentInput.DeploymentId := Some (schema.id (data s)) |} (remote s)
    = ((Some out, None), r1) ->
  GetDeploymentOutput.DeploymentInfo out = Some info ->
  (DeploymentInfo.Status info = codedeployTypes.DeploymentStatusSucceeded
   \/ DeploymentInfo.Status info = codedeployTypes.DeploymentStatusFailed
   \/ DeploymentInfo.Status info = codedeployTypes.DeploymentStatusStopped ->
     resourceDeploymentDelete svc s
     = (Returned [], Build_State (data s) r1 (calls s ++ [fetchOf (data s)])))
  /\ (DeploymentInfo.Status info <> codedeployTypes.DeploymentStatusSucceeded ->
      DeploymentInfo.Status info <> codedeployTypes.DeploymentStatusFailed ->
      DeploymentInfo.Status info <> codedeployTypes.DeploymentStatusStopped ->
      forall rollback stopOut stopErr r2,
        DeploymentInfo.DeploymentId info = Some (schema.id (data s)) ->
        schema.Get (data s) "auto_rollback_enabled" = ABool rollback ->
        let stop := {| StopDeploymentInput.DeploymentId := Some (schema.id (data s));
                       StopDeploymentInput.AutoRollbackEnabled := Some rollback |} in
        StopDeployment svc stop r1 = ((stopOut, stopErr), r2) ->
        exists diags,
          resourceDeploymentDelete svc s
          = (Returned diags,
             Build_State (data s) r2 (calls s ++ [fetchOf (data s); CallStopDeployment stop]))
          /\ diags = match stopErr with
                     | Some e => [ {| diag.severity := diag.Warning; diag.Summary := e |} ]
                     | None => []
                     end
          /\ diag.HasError diags = false).
Proof.
  intros Hget Hinfo. split.
  - intros Hterminal. unfold_ops. rewrite Hget. step. rewrite Hinfo.
    destruct Hterminal as [-> | [-> | ->]]; reflexivity.
  - intros H1 H2 H3 rollback stopOut stopErr r2 Hecho Hflag stop Hstop.
    unfold_ops. rewrite Hget. step. rewrite Hinfo.
    apply String.eqb_neq in H1, H2, H3. rewrite H1, H2, H3. cbn [negb andb].
    step. rewrite Hflag, Hecho. fold stop. rewrite Hstop. step.
    rewrite <- app_assoc. destruct stopErr; eexists; repeat split.
Qed.

(** C8.  When the status fetch of read succeeds and the write of
    [deployment_status] is refused, read returns [diag.FromErr] of the
    fetch error, which is nil at that point: no diagnostics at all, and
    the resource data left as it was. *)
Theorem read_failed_write_reported_as_success (s : State Remote) out info e r1 :
  GetDeployment svc
    {| GetDeploymentInput.DeploymentId := Some (schema.id (data s)) |} (remote s)
    = ((Some out, None), r1) ->
  GetDeploymentOutput.DeploymentInfo out = Some info ->
  schema.writer (data s) "deployment_status"
    (ADeploymentStatus (DeploymentInfo.Status info)) = Some e ->
  exists diags,
    resourceDeploymentRead svc s
    = (Returned diags, Build_State (data s) r1 (calls s ++ [fetchOf (data s)]))
    /\ diags = diag.FromErr None
    /\ diags = []
    /\ diag.HasError diags = false.
Proof.
  intros Hget Hinfo Hw. unfold_ops. rewrite Hget. step. rewrite Hinfo, Hw. step.
  eexists. repeat split.
Qed.

(** What read does otherwise: a fetch error is returned as an error
    diagnostic, and an accepted write stores the status. *)
Lemma read_fetch_error (s : State Remote) out e r1 :
  GetDeployment svc
    {| GetDeploymentInput.DeploymentId := Some (schema.id (data s)) |} (remote s)
    = ((out, Some e), r1) ->
  resourceDeploymentRead svc s
  = (Returned (diag.FromErr (Some e)), Build_State (data s) r1 (calls s ++ [fetchOf (data s)])).
Proof. intros Hget. unfold_ops. rewrite Hget. reflexivity. Qed.

Lemma read_writes_status (s : State Remote) out info r1 :
  GetDeployment svc
    {| GetDeploymentInput.DeploymentId := Some (schema.id (data s)) |} (remote s)
    = ((Some out, None), r1) ->
  GetDeploymentOutput.DeploymentInfo out = Some info ->
  schema.writer (data s) "deployment_status"
    (ADeploymentStatus (DeploymentInfo.Status info)) = None ->
  resourceDeploymentRead svc s
  = (Returned [],
     Build_State
       {| schema.id := schema.id (data s);
          schema.attrs := <["deployment_status" :=
                             ADeploymentStatus (DeploymentInfo.Status info)]>
                            (schema.attrs (data s));
          schema.timeouts := schema.timeouts (data s);
          schema.writer := schema.writer (data s) |}
       r1 (calls s ++ [fetchOf (data s)])).
Proof.
  intros Hget Hinfo Hw. unfold_ops. rewrite Hget. step. rewrite Hinfo, Hw. reflexivity.
Qed.

(** C1, as the code has it.  When the wait of create fails, the waiter
    returning no output with its error (as it does on every failure, whether
    or not a deployment record had been fetched while waiting), create calls
    Stop once, with the deployment id Submit returned and the configured
    rollback flag, and returns the diagnostic of the wait failure followed
    by the diagnostic of the Stop error if there is one.  The result has an
    error and the resource data, its identity included, is left as it
    was. *)
Theorem create_wait_failure_stops_when_output_absent
    (s : State Remote) input created r1 waitErr r2 rollback stopOut stopErr r3 :
  createInput (data s) = Returned input ->
  CreateDeployment svc input (remote s) = ((Some created, None), r1) ->
  let ident := CreateDeploymentOutput.DeploymentId created in
  let wait := CallWaitForOutput delay
                {| GetDeploymentInput.DeploymentId := ident |}
                (time.sub (schema.Timeout (data s) schema.TimeoutCreate) delay) in
  WaitForOutput svc delay {| GetDeploymentInput.DeploymentId := ident |}
    (time.sub (schema.Timeout (data s) schema.TimeoutCreate) delay) r1
    = ((None, Some waitErr), r2) ->
  schema.Get (data s) "auto_rollback_enabled" = ABool rollback ->
  let stop := {| StopDeploymentInput.DeploymentId := ident;
                 StopDeploymentInput.AutoRollbackEnabled := Some rollback |} in
  StopDeployment svc stop r2 = ((stopOut, stopErr), r3) ->
  exists diags,
    resourceDeploymentCreate svc s
    = (Returned diags,
       Build_State (data s) r3
         (calls s ++ [CallCreateDeployment input; wait; CallStopDeployment stop]))
    /\ diags = diag.FromErr (Some waitErr) ++ diag.FromErr stopErr
    /\ diag.HasError diags = true
    /\ stopCalls (calls s ++ [CallCreateDeployment input; wait; CallStopDeployment stop])
       = stopCalls (calls s) ++ [CallStopDeployment stop].
Proof.
  intros Hin Hcreate ident wait Hwait Hflag stop Hstop.
  unfold_ops. rewrite Hin. step. rewrite Hcreate. step.
  fold ident. rewrite Hwait. step. rewrite Hflag. fold stop. rewrite Hstop. step.
  rewrite <- !app_assoc.
  assert (stopCalls (calls s ++ [CallCreateDeployment input; wait; CallStopDeployment stop])
          = stopCalls (calls s) ++ [CallStopDeployment stop]) as Hstops.
  { unfold stopCalls. rewrite List.filter_app. reflexivity. }
  destruct stopErr; eexists; repeat split; exact Hstops.
Qed.

(** C2, as the code has it.  Create persists no identity unless Submit
    and the wait both succeed: a Submit error or a wait failure leaves the
    resource data as it was and is returned as an error.  Once both have
    succeeded the identity Submit returned is stored and create is the read
    that follows: it returns no diagnostics with the status written when
    the fetch succeeds and the write is accepted, and the error of a failed
    fetch with the identity stored all the same. *)
Theorem create_persists_identity_before_read (s : State Remote) input :
  createInput (data s) = Returned input ->
  (forall out e r1,
      CreateDeployment svc input (remote s) = ((out, Some e), r1) ->
      resourceDeploymentCreate svc s
      = (Returned (diag.FromErr (Some e)),
         Build_State (data s) r1 (calls s ++ [CallCreateDeployment input]))
      /\ diag.HasError (diag.FromErr (Some e)) = true)
  /\ (forall created r1,
        CreateDeployment svc input (remote s) = ((Some created, None), r1) ->
        let ident := CreateDeploymentOutput.DeploymentId created in
        let maxWait := time.sub (schema.Timeout (data s) schema.TimeoutCreate) delay in
        let wait := CallWaitForOutput delay
                      {| GetDeploymentInput.DeploymentId := ident |} maxWait in
        forall output waitErr r2,
          WaitForOutput svc delay {| GetDeploymentInput.DeploymentId := ident |} maxWait r1
            = ((output, waitErr), r2) ->
          (is_Some waitErr ->
             exists r s',
               resourceDeploymentCreate svc s = (r, s')
               /\ data s' = data s
               /\ forall diags, r = Returned diags -> diag.HasError diags = true)
          /\ (waitErr = None ->
              forall newId, ident = Some newId ->
                let s1 := Build_State (schema.SetId (data s) newId) r2
                            (calls s ++ [CallCreateDeployment input; wait]) in
                resourceDeploymentCreate svc s = resourceDeploymentRead svc s1
                /\ (forall fetched e r3,
                      GetDeployment svc
                        {| GetDeploymentInput.DeploymentId := Some newId |} r2
                        = ((fetched, Some e), r3) ->
                      exists s',
                        resourceDeploymentCreate svc s
                          = (Returned (diag.FromErr (Some e)), s')
                        /\ diag.HasError (diag.FromErr (Some e)) = true
                        /\ schema.id (data s') = newId)
                /\ (forall fetched info r3,
                      GetDeployment svc
                        {| GetDeploymentInput.DeploymentId := Some newId |} r2
                        = ((Some fetched, None), r3) ->
                      GetDeploymentOutput.DeploymentInfo fetched = Some info ->
                      schema.writer (data s) "deployment_status"
                        (ADeploymentStatus (DeploymentInfo.Status info)) = None ->
                      exists s',
                        resourceDeploymentCreate svc s = (Returned [], s')
                        /\ schema.id (data s') = newId
                        /\ schema.attrs (data s') !! "deployment_status"
                           = Some (ADeploymentStatus (DeploymentInfo.Status info))))).
Proof.
  intros Hin. split.
  - intros out e r1 Hcreate. unfold_ops. rewrite Hin. step. rewrite Hcreate. step.
    split; reflexivity.
  - intros created r1 Hcreate ident maxWait wait output waitErr r2 Hwait. split.
    + intros [e ->]. unfold_ops. rewrite Hin. step. rewrite Hcreate. step.
      fold ident maxWait. rewrite Hwait. branch.
      all: eexists _, _; (split; [reflexivity|]); step; (split; [reflexivity|]).
      all: intros diags [= <-]; reflexivity.
    + intros -> newId Hid s1.
      assert (resourceDeploymentCreate svc s = resourceDeploymentRead svc s1) as Hread.
      { unfold resourceDeploymentCreate at 1.
        unfold svcCreateDeployment, waiterWaitForOutput, call, dTimeout, dSetId, lift,
          deref, mbind, M_bind, mret, M_ret.
        rewrite Hin. step. rewrite Hcreate. step.
        fold ident maxWait. rewrite Hwait. step. unfold s1, wait. rewrite Hid. step.
        rewrite <- !app_assoc. reflexivity. }
      split; [exact Hread|]. rewrite Hread. split.
      * intros fetched e r3 Hget.
        rewrite (read_fetch_error s1 fetched e r3 Hget).
        eexists. repeat split.
      * intros fetched info r3 Hget Hinfo Hw.
        rewrite (read_writes_status s1 fetched info r3 Hget Hinfo Hw).
        eexists. split; [reflexivity|]. step. split; [reflexivity|].
        apply lookup_insert_eq.
Qed.

(** C6.  After a successful Submit, create waits with a maximum
    inter-poll delay of 15 seconds and a maximum wait of the create
    timeout less those 15 seconds. *)
Theorem create_wait_budget (s : State Remote) input created r1 :
  createInput (data s) = Returned input ->
  CreateDeployment svc input (remote s) = ((Some created, None), r1) ->
  - 2 ^ 63 + 15 * time.Second <= schema.Timeout (data s) schema.TimeoutCreate < 2 ^ 63 ->
  exists r s' more,
    resourceDeploymentCreate svc s = (r, s')
    /\ calls s' =
         calls s ++
         CallCreateDeployment input ::
         CallWaitForOutput (15 * time.Second)
           {| GetDeploymentInput.DeploymentId := CreateDeploymentOutput.DeploymentId created |}
           (schema.Timeout (data s) schema.TimeoutCreate - 15 * time.Second) :: more.
Proof.
  intros Hin Hcreate Hrange.
  rewrite <- (sub_exact _ (15 * time.Second)) by (unfold time.Second in *; lia).
  change (15 * time.Second) with delay.
  unfold_ops. rewrite Hin. step. rewrite Hcreate.
  branch.
  all: do 3 eexists; (split; [reflexivity|]); step.
  all: rewrite <- ?app_assoc; reflexivity.
Qed.

(** The previous revision of the file waited with a delay of 30 seconds
    and the whole create timeout. *)
Lemma previous_create_wait_budget (s : State Remote) input created r1 :
  V0.createInput (data s) = Returned input ->
  CreateDeployment svc input (remote s) = ((Some created, None), r1) ->
  exists r s' more,
    V0.resourceDeploymentCreate svc s = (r, s')
    /\ calls s' =
         calls s ++
         CallCreateDeployment input ::
         CallWaitForOutput (30 * time.Second)
           {| GetDeploymentInput.DeploymentId := CreateDeploymentOutput.DeploymentId created |}
           (schema.Timeout (data s) schema.TimeoutCreate) :: more.
Proof.
  intros Hin Hcreate.
  unfold_ops. rewrite Hin. step. rewrite Hcreate.
  branch.
  all: do 3 eexists; (split; [reflexivity|]); step.
  all: rewrite <- ?app_assoc; reflexivity.
Qed.

(** C10.  With a discriminator that is none of the three tags the
    dispatch takes no case: it returns the zero request, without a panic,
    and create submits that request, with no application name, no
    deployment group and no revision. *)
Theorem create_unknown_revision_type_submits_zero
    (s : State Remote) app grp (revision : gmap string any) others revisionType :
  schema.Get (data s) "application_name" = AString app ->
  schema.Get (data s) "deployment_group_name" = AString grp ->
  schema.Get (data s) "revision" = ASlice (AMap revision :: others) ->
  mapIndex revision "revision_type" = AString revisionType ->
  revisionType <> codedeployTypes.RevisionLocationTypeS3 ->
  revisionType <> codedeployTypes.RevisionLocationTypeGitHub ->
  revisionType <> codedeployTypes.RevisionLocationTypeAppSpecContent ->
  dispatch app grp revision revisionType = Returned CreateDeploymentInput.zero
  /\ exists r s' more submitted,
      resourceDeploymentCreate svc s = (r, s')
      /\ calls s' = calls s ++ CallCreateDeployment submitted :: more
      /\ CreateDeploymentInput.ApplicationName submitted = None
      /\ CreateDeploymentInput.DeploymentGroupName submitted = None
      /\ CreateDeploymentInput.Revision submitted = None.
Proof.
  intros Happ Hgrp Hrev Htype H1 H2 H3.
  assert (dispatch app grp revision revisionType = Returned CreateDeploymentInput.zero)
    as Hzero.
  { unfold dispatch. apply String.eqb_neq in H1, H2, H3. rewrite H1, H2, H3. reflexivity. }
  split; [exact Hzero|].
  assert (createInput (data s) = Returned CreateDeploymentInput.zero) as Hin.
  { unfold createInput. rewrite Happ, Hgrp, Hrev. cbn. rewrite Htype. cbn. exact Hzero. }
  unfold_ops. rewrite Hin.
  branch.
  all: do 4 eexists; (split; [reflexivity|]); step.
  all: rewrite <- ?app_assoc; repeat split.
Qed.

End Lifecycle.

(** ** The theorems on concrete runs *)

Lemma delete_fetch_error_warns_witness :
  exists diags s',
    resourceDeploymentDelete unreachableAfterWait (start storedData) = (Returned diags, s')
    /\ diags = [ {| diag.severity := diag.Warning; diag.Summary := unreachable |} ]
    /\ diag.HasError diags = false
    /\ calls s' = [] ++ [fetchOf storedData]
    /\ stopCalls (calls s') = stopCalls []
    /\ data s' = storedData.
Proof.
  exact (delete_fetch_error_warns unreachableAfterWait (start storedData)
           None unreachable tt eq_refl).
Defined.

Lemma delete_stops_unless_terminal_witness :
  resourceDeploymentDelete (fetching "Failed" stoppedOk) (start storedData)
    = (Returned [], Build_State storedData tt [fetchOf storedData])
  /\ exists diags,
      resourceDeploymentDelete (fetching "InProgress" (None, Some notStoppable))
        (start storedData)
      = (Returned diags,
         Build_State storedData tt
           [fetchOf storedData;
            CallStopDeployment
              {| StopDeploymentInput.DeploymentId := Some "d-123";
                 StopDeploymentInput.AutoRollbackEnabled := Some true |}])
      /\ diags = [ {| diag.severity := diag.Warning; diag.Summary := notStoppable |} ]
      /\ diag.HasError diags = false.
Proof.
  split.
  - apply (delete_stops_unless_terminal (fetching "Failed" stoppedOk) (start storedData)
             (recordOf "d-123" "Failed") _ tt eq_refl eq_refl).
    right; left; reflexivity.
  - apply (proj2 (delete_stops_unless_terminal
                    (fetching "InProgress" (None, Some notStoppable)) (start storedData)
                    (recordOf "d-123" "InProgress") _ tt eq_refl eq_refl)
             ltac:(discriminate) ltac:(discriminate) ltac:(discriminate)
             true None (Some notStoppable) tt eq_refl).
    + vm_compute. reflexivity.
    + reflexivity.
Defined.

Lemma read_failed_write_reported_as_success_witness :
  exists diags,
    resourceDeploymentRead succeeding (start unwritableData)
    = (Returned diags, Build_State unwritableData tt ([] ++ [fetchOf unwritableData]))
    /\ diags = diag.FromErr None
    /\ diags = []
    /\ diag.HasError diags = false.
Proof.
  exact (read_failed_write_reported_as_success succeeding (start unwritableData)
           (recordOf "d-123" "Succeeded") _ "deployment_status: invalid value" tt
           eq_refl eq_refl eq_refl).
Defined.

Lemma create_wait_failure_stops_when_output_absent_witness :
  (* the wait runs out, Stop fails too: both errors are returned *)
  (exists diags,
      resourceDeploymentCreate timedOutUnobserved (start githubData)
      = (Returned diags,
         Build_State githubData tt
           ([] ++
            [CallCreateDeployment githubInput;
             CallWaitForOutput delay
               {| GetDeploymentInput.DeploymentId := Some "d-456" |}
               (time.sub (schema.Timeout githubData schema.TimeoutCreate) delay);
             CallStopDeployment
               {| StopDeploymentInput.DeploymentId := Some "d-456";
                  StopDeploymentInput.AutoRollbackEnabled := Some true |}]))
      /\ diags = diag.FromErr (Some waitExceeded) ++ diag.FromErr (Some notStoppable)
      /\ diag.HasError diags = true
      /\ stopCalls
           ([] ++
            [CallCreateDeployment githubInput;
             CallWaitForOutput delay
               {| GetDeploymentInput.DeploymentId := Some "d-456" |}
               (time.sub (schema.Timeout githubData schema.TimeoutCreate) delay);
             CallStopDeployment
               {| StopDeploymentInput.DeploymentId := Some "d-456";
                  StopDeploymentInput.AutoRollbackEnabled := Some true |}])
         = stopCalls [] ++
           [CallStopDeployment
              {| StopDeploymentInput.DeploymentId := Some "d-456";
                 StopDeploymentInput.AutoRollbackEnabled := Some true |}])
  (* the deployment stays in progress until the wait runs out, Stop succeeds *)
  /\ (exists diags,
        resourceDeploymentCreate timedOutInProgress (start githubData)
        = (Returned diags,
           Build_State githubData tt
             ([] ++
              [CallCreateDeployment githubInput;
               CallWaitForOutput delay
                 {| GetDeploymentInput.DeploymentId := Some "d-456" |}
                 (time.sub (schema.Timeout githubData schema.TimeoutCreate) delay);
               CallStopDeployment
                 {| StopDeploymentInput.DeploymentId := Some "d-456";
                    StopDeploymentInput.AutoRollbackEnabled := Some true |}]))
        /\ diags = diag.FromErr (Some waitExceeded) ++ diag.FromErr None
        /\ diag.HasError diags = true
        /\ stopCalls
             ([] ++
              [CallCreateDeployment githubInput;
               CallWaitForOutput delay
                 {| GetDeploymentInput.DeploymentId := Some "d-456" |}
                 (time.sub (schema.Timeout githubData schema.TimeoutCreate) delay);
               CallStopDeployment
                 {| StopDeploymentInput.DeploymentId := Some "d-456";
                    StopDeploymentInput.AutoRollbackEnabled := Some true |}])
           = stopCalls [] ++
             [CallStopDeployment
                {| StopDeploymentInput.DeploymentId := Some "d-456";
                   StopDeploymentInput.AutoRollbackEnabled := Some true |}]).
Proof.
  split.
  - apply (create_wait_failure_stops_when_output_absent
             timedOutUnobserved (start githubData) githubInput
             {| CreateDeploymentOutput.DeploymentId := Some "d-456" |} tt
             waitExceeded tt true None (Some notStoppable) tt).
    + vm_compute. reflexivity.
    + reflexivity.
    + reflexivity.
    + vm_compute. reflexivity.
    + reflexivity.
  - apply (create_wait_failure_stops_when_output_absent
             timedOutInProgress (start githubData) githubInput
             {| CreateDeploymentOutput.DeploymentId := Some "d-456" |} tt
             waitExceeded tt true
             (Some {| StopDeploymentOutput.Status := "Pending";
                      StopDeploymentOutput.StatusMessage := None |}) None tt).
    + vm_compute. reflexivity.
    + reflexivity.
    + reflexivity.
    + vm_compute. reflexivity.
    + reflexivity.
Defined.

(** C1, as the claim states it, fails where no deployment info was
    observed: the waiter returns no output with its error, and create does
    call Stop, for the deployment id that Submit returned. *)
Lemma create_wait_failure_counterexample :
  WaitForOutput timedOutUnobserved delay
    {| GetDeploymentInput.DeploymentId := Some "d-456" |}
    (60 * time.Minute - 15 * time.Second) tt = ((None, Some waitExceeded), tt)
  /\ stopCalls (calls (snd (resourceDeploymentCreate timedOutUnobserved (start githubData))))
     = [CallStopDeployment
          {| StopDeploymentInput.DeploymentId := Some "d-456";
             StopDeploymentInput.AutoRollbackEnabled := Some true |}]
  /\ stopCalls (calls (snd (resourceDeploymentCreate timedOutUnobserved (start githubData))))
     <> [].
Proof. repeat split; try (vm_compute; reflexivity). vm_compute. discriminate. Qed.

Lemma create_persists_identity_before_read_witness :
  (* Submit refused: an error, the data untouched *)
  (resourceDeploymentCreate refusing (start githubData)
   = (Returned (diag.FromErr (Some "DeploymentLimitExceededException")),
      Build_State githubData tt [CallCreateDeployment githubInput])
   /\ diag.HasError (diag.FromErr (Some "DeploymentLimitExceededException")) = true)
  (* the wait fails: an error, the data untouched *)
  /\ (exists r s',
        resourceDeploymentCreate timedOutUnobserved (start githubData) = (r, s')
        /\ data s' = githubData
        /\ forall diags, r = Returned diags -> diag.HasError diags = true)
  (* Submit and the wait succeed, the fetch fails: an error, the identity stored *)
  /\ (exists s',
        resourceDeploymentCreate unreachableAfterWait (start githubData)
        = (Returned (diag.FromErr (Some unreachable)), s')
        /\ diag.HasError (diag.FromErr (Some unreachable)) = true
        /\ schema.id (data s') = "d-123")
  (* all succeed: no diagnostics, identity and status stored *)
  /\ (exists s',
        resourceDeploymentCreate succeeding (start githubData) = (Returned [], s')
        /\ schema.id (data s') = "d-123"
        /\ schema.attrs (data s') !! "deployment_status"
           = Some (ADeploymentStatus "Succeeded")).
Proof.
  assert (createInput githubData = Returned githubInput) as Hin
    by (vm_compute; reflexivity).
  split; [|split; [|split]].
  - apply (proj1 (create_persists_identity_before_read refusing (start githubData)
                    githubInput Hin) None "DeploymentLimitExceededException" tt eq_refl).
  - destruct (proj2 (create_persists_identity_before_read timedOutUnobserved
                      (start githubData) githubInput Hin)
                {| CreateDeploymentOutput.DeploymentId := Some "d-456" |} tt eq_refl
                None (Some waitExceeded) tt eq_refl) as [Hfailed _].
    apply Hfailed. eexists; reflexivity.
  - destruct (proj2 (create_persists_identity_before_read unreachableAfterWait
                      (start githubData) githubInput Hin)
                {| CreateDeploymentOutput.DeploymentId := Some "d-123" |} tt eq_refl
                (Some (recordOf "d-123" "Succeeded")) None tt eq_refl) as [_ Hwaited].
    destruct (Hwaited eq_refl "d-123" eq_refl) as (_ & Hfetch & _).
    exact (Hfetch None unreachable tt eq_refl).
  - destruct (proj2 (create_persists_identity_before_read succeeding
                      (start githubData) githubInput Hin)
                {| CreateDeploymentOutput.DeploymentId := Some "d-123" |} tt eq_refl
                (Some (recordOf "d-123" "Succeeded")) None tt eq_refl) as [_ Hwaited].
    destruct (Hwaited eq_refl "d-123" eq_refl) as (_ & _ & Hwritten).
    exact (Hwritten (recordOf "d-123" "Succeeded") _ tt eq_refl eq_refl eq_refl).
Defined.

(** C2, as the claim states it, fails when the read that ends a create
    cannot fetch the status: create returns an error and the identity is
    stored all the same, which is neither a full success nor a failure
    without identity. *)
Lemma create_atomicity_counterexample :
  exists diags s',
    resourceDeploymentCreate unreachableAfterWait (start githubData) = (Returned diags, s')
    /\ schema.id (data (start githubData)) = ""
    /\ diag.HasError diags = true
    /\ schema.id (data s') = "d-123"
    /\ ~ ((diag.HasError diags = false
           /\ schema.id (data s') <> ""
           /\ is_Some (schema.attrs (data s') !! "deployment_status"))
          \/ (diag.HasError diags = true /\ schema.id (data s') = "")).
Proof.
  eexists _, _. split; [vm_compute; reflexivity|].
  split; [reflexivity|]. split; [reflexivity|]. split; [reflexivity|].
  intros [[H _] | [_ H]]; discriminate H.
Qed.

Lemma create_wait_budget_witness :
  exists r s' more,
    resourceDeploymentCreate succeeding (start githubData) = (r, s')
    /\ calls s' =
         [] ++
         CallCreateDeployment githubInput ::
         CallWaitForOutput (15 * time.Second)
           {| GetDeploymentInput.DeploymentId := Some "d-123" |}
           (60 * time.Minute - 15 * time.Second) :: more.
Proof.
  apply (create_wait_budget succeeding (start githubData) githubInput
           {| CreateDeploymentOutput.DeploymentId := Some "d-123" |} tt).
  - vm_compute. reflexivity.
  - reflexivity.
  - vm_compute. split; [discriminate | reflexivity].
Defined.

Lemma create_unknown_revision_type_submits_zero_witness :
  dispatch "app" "fleet" (revisionOf "Mercurial" "github_location" githubBlock) "Mercurial"
    = Returned CreateDeploymentInput.zero
  /\ exists r s' more submitted,
      resourceDeploymentCreate succeeding (start unknownTypeData) = (r, s')
      /\ calls s' = [] ++ CallCreateDeployment submitted :: more
      /\ CreateDeploymentInput.ApplicationName submitted = None
      /\ CreateDeploymentInput.DeploymentGroupName submitted = None
      /\ CreateDeploymentInput.Revision submitted = None.
Proof.
  apply (create_unknown_revision_type_submits_zero succeeding (start unknownTypeData)
           "app" "fleet" (revisionOf "Mercurial" "github_location" githubBlock) []
           "Mercurial").
  all: try (vm_compute; reflexivity).
  all: discriminate.
Defined.

(** The run of the last witness in full: the zero request is submitted and
    the lifecycle carries on with whatever the service answers. *)
Example create_unknown_revision_type_run :
  calls (snd (resourceDeploymentCreate succeeding (start unknownTypeData)))
  = [CallCreateDeployment CreateDeploymentInput.zero;
     CallWaitForOutput (15 * time.Second)
       {| GetDeploymentInput.DeploymentId := Some "d-123" |}
       (60 * time.Minute - 15 * time.Second);
     CallGetDeployment {| GetDeploymentInput.DeploymentId := Some "d-123" |}].
Proof. vm_compute. reflexivity. Qed.

(** * Further properties *)

(** ** When the resolvers return *)

Lemma bind_Returned {A B : Type} (m : outcome A) (f : A -> outcome B) b :
  mbind f m = Returned b <-> exists a, m = Returned a /\ f a = Returned b.
Proof.
  destruct m as [a|p]; cbn; split.
  - intros H. by exists a.
  - by intros (a' & [= <-] & H).
  - intros [=].
  - by intros (a' & [=] & _).
Qed.

Lemma bind_Panicked {A B : Type} (m : outcome A) (f : A -> outcome B) p :
  mbind f m = Panicked p <->
  m = Panicked p \/ exists a, m = Returned a /\ f a = Panicked p.
Proof.
  destruct m as [a|q]; cbn; split.
  - intros H. right. by exists a.
  - by intros [[=] | (a' & [= <-] & H)].
  - intros [= <-]. by left.
  - by intros [[= <-] | (a' & [=] & _)].
Qed.

Lemma assertString_Returned x s : assertString x = Returned s <-> x = AString s.
Proof. destruct x; cbn; split; by intros [= <-]. Qed.

Lemma assertBundleType_Returned x s : assertBundleType x = Returned s <-> x = ABundleType s.
Proof. destruct x; cbn; split; by intros [= <-]. Qed.

Lemma assertString_Panicked x p : assertString x = Panicked p -> p = InterfaceConversion.
Proof. destruct x; cbn; by intros [= <-]. Qed.

Lemma assertBundleType_Panicked x p :
  assertBundleType x = Panicked p -> p = InterfaceConversion.
Proof. destruct x; cbn; by intros [= <-]. Qed.

Lemma prepare_S3_Returned_inv app grp (m : gmap string any) input :
  prepareDeploymentInputWithS3Location app grp m = Returned input ->
  exists bucket key bundle,
    mapIndex m "bucket" = AString bucket
    /\ mapIndex m "key" = AString key
    /\ mapIndex m "bundle_type" = ABundleType bundle.
Proof.
  intros H. unfold prepareDeploymentInputWithS3Location in H.
  apply bind_Returned in H as (bucket & Hb & H).
  apply bind_Returned in H as (key & Hk & H).
  apply bind_Returned in H as (bundle & Ht & _).
  exists bucket, key, bundle.
  by apply assertString_Returned in Hb, Hk; apply assertBundleType_Returned in Ht.
Qed.

Lemma prepare_S3_Panicked_inv app grp (m : gmap string any) p :
  prepareDeploymentInputWithS3Location app grp m = Panicked p -> p = InterfaceConversion.
Proof.
  intros H. unfold prepareDeploymentInputWithS3Location in H.
  apply bind_Panicked in H as [H | (? & _ & H)];
    [by apply assertString_Panicked in H|].
  apply bind_Panicked in H as [H | (? & _ & H)];
    [by apply assertString_Panicked in H|].
  apply bind_Panicked in H as [H | (? & _ & [=])].
  by apply assertBundleType_Panicked in H.
Qed.

(** The S3 resolver returns exactly on a block whose [bucket] and [key]
    are strings and whose [bundle_type] has the SDK's type [BundleType];
    any other block is an interface-conversion panic. *)
Theorem prepare_S3_returns_iff_typed app grp (m : gmap string any) :
  ((exists input, prepareDeploymentInputWithS3Location app grp m = Returned input)
   <-> (exists bucket key bundle,
          mapIndex m "bucket" = AString bucket
          /\ mapIndex m "key" = AString key
          /\ mapIndex m "bundle_type" = ABundleType bundle))
  /\ (forall p, prepareDeploymentInputWithS3Location app grp m = Panicked p ->
        p = InterfaceConversion).
Proof.
  split; [split|].
  - intros [input H]. by apply prepare_S3_Returned_inv in H.
  - intros (bucket & key & bundle & Hb & Hk & Ht).
    eexists. by apply prepare_S3_returns.
  - apply prepare_S3_Panicked_inv.
Qed.

(** The GitHub resolver returns exactly on a block whose [repository] and
    [commit_id] are strings; any other block is an interface-conversion
    panic. *)
Theorem prepare_GitHub_returns_iff_typed app grp (m : gmap string any) :
  ((exists input, prepareDeploymentInputWithGitHubLocation app grp m = Returned input)
   <-> (exists repository commit,
          mapIndex m "repository" = AString repository
          /\ mapIndex m "commit_id" = AString commit))
  /\ (forall p, prepareDeploymentInputWithGitHubLocation app grp m = Panicked p ->
        p = InterfaceConversion).
Proof.
  split; [split|].
  - intros [input H]. unfold prepareDeploymentInputWithGitHubLocation in H.
    apply bind_Returned in H as (repository & Hr & H).
    apply bind_Returned in H as (commit & Hc & _).
    exists repository, commit.
    by apply assertString_Returned in Hr, Hc.
  - intros (repository & commit & Hr & Hc).
    eexists. by apply prepare_GitHub_returns.
  - intros p H. unfold prepareDeploymentInputWithGitHubLocation in H.
    apply bind_Panicked in H as [H | (? & _ & H)];
      [by apply assertString_Panicked in H|].
    apply bind_Panicked in H as [H | (? & _ & [=])].
    by apply assertString_Panicked in H.
Qed.

(** The inline-content resolver returns exactly on a block whose [content]
    is a string and whose [sha256] is nil (or missing) or a string; any
    other block is an interface-conversion panic.  The content itself goes
    into the request as it is. *)
Theorem prepare_AppSpecContent_returns_iff_typed app grp (m : gmap string any) :
  ((exists input, prepareDeploymentInputWithAppSpecContent app grp m = Returned input)
   <-> (exists content,
          mapIndex m "content" = AString content
          /\ (mapIndex m "sha256" = ANil \/ exists h, mapIndex m "sha256" = AString h)))
  /\ (forall p, prepareDeploymentInputWithAppSpecContent app grp m = Panicked p ->
        p = InterfaceConversion)
  /\ (forall input content,
        prepareDeploymentInputWithAppSpecContent app grp m = Returned input ->
        mapIndex m "content" = AString content ->
        exists rev spec,
          CreateDeploymentInput.Revision input = Some rev
          /\ RevisionLocation.AppSpecContent rev = Some spec
          /\ AppSpecContent.Content spec = Some content).
Proof.
  split; [split|split].
  - intros [input H]. unfold prepareDeploymentInputWithAppSpecContent in H.
    apply bind_Returned in H as (content & Hc & H).
    apply bind_Returned in H as (h & Hh & _).
    exists content. split; [by apply assertString_Returned in Hc|].
    destruct (mapIndex m "sha256"); try discriminate Hh; [by left | right; by eexists].
  - intros (content & Hc & Hh).
    unfold prepareDeploymentInputWithAppSpecContent. rewrite Hc.
    destruct Hh as [-> | [h ->]]; by eexists.
  - intros p H. unfold prepareDeploymentInputWithAppSpecContent in H.
    apply bind_Panicked in H as [H | (? & _ & H)];
      [by apply assertString_Panicked in H|].
    apply bind_Panicked in H as [H | (? & _ & [=])].
    destruct (mapIndex m "sha256"); by inversion H.
  - intros input content H Hc.
    unfold prepareDeploymentInputWithAppSpecContent in H. rewrite Hc in H.
    apply bind_Returned in H as (? & [= <-] & H).
    apply bind_Returned in H as (h & _ & [= <-]).
    by eexists _, _.
Qed.

(** ** What the resolvers and the dispatch read *)

Lemma mapIndex_insert_ne (m : gmap string any) k k' v :
  k <> k' -> mapIndex (<[k := v]> m) k' = mapIndex m k'.
Proof. intros Hne. unfold mapIndex. by rewrite lookup_insert_ne. Qed.

(** Each resolver reads the keys of its own fields and nothing else: a
    block with any other key set to any value resolves to the same request
    or the same panic. *)
Theorem resolvers_read_only_their_fields app grp (m : gmap string any) k v :
  (k <> "bucket" -> k <> "key" -> k <> "bundle_type" ->
     prepareDeploymentInputWithS3Location app grp (<[k := v]> m)
     = prepareDeploymentInputWithS3Location app grp m)
  /\ (k <> "repository" -> k <> "commit_id" ->
      prepareDeploymentInputWithGitHubLocation app grp (<[k := v]> m)
      = prepareDeploymentInputWithGitHubLocation app grp m)
  /\ (k <> "content" -> k <> "sha256" ->
      prepareDeploymentInputWithAppSpecContent app grp (<[k := v]> m)
      = prepareDeploymentInputWithAppSpecContent app grp m).
Proof.
  repeat split; intros;
    unfold prepareDeploymentInputWithS3Location, prepareDeploymentInputWithGitHubLocation,
      prepareDeploymentInputWithAppSpecContent;
    by rewrite !mapIndex_insert_ne.
Qed.

Lemma resolvers_read_only_their_fields_witness :
  prepareDeploymentInputWithS3Location "app" "fleet" (<["version" := AString "3"]> s3Block)
  = prepareDeploymentInputWithS3Location "app" "fleet" s3Block
  /\ prepareDeploymentInputWithGitHubLocation "app" "fleet" (<["branch" := ANil]> githubBlock)
     = prepareDeploymentInputWithGitHubLocation "app" "fleet" githubBlock
  /\ prepareDeploymentInputWithAppSpecContent "app" "fleet" (<["md5" := ABool true]> appSpecBlock)
     = prepareDeploymentInputWithAppSpecContent "app" "fleet" appSpecBlock.
Proof.
  split; [|split].
  - apply (resolvers_read_only_their_fields "app" "fleet" s3Block "version" (AString "3"));
      discriminate.
  - apply (resolvers_read_only_their_fields "app" "fleet" githubBlock "branch" ANil);
      discriminate.
  - apply (resolvers_read_only_their_fields "app" "fleet" appSpecBlock "md5" (ABool true));
      discriminate.
Defined.

(** The dispatch goes by the discriminator alone: whatever is or is not
    under the keys of the other variants (or any other key), the result for
    a tag is the same. *)
Theorem dispatch_reads_only_the_block_of_its_tag
    app grp (revision : gmap string any) k v :
  (k <> "s3_location" ->
     dispatch app grp (<[k := v]> revision) codedeployTypes.RevisionLocationTypeS3
     = dispatch app grp revision codedeployTypes.RevisionLocationTypeS3)
  /\ (k <> "github_location" ->
      dispatch app grp (<[k := v]> revision) codedeployTypes.RevisionLocationTypeGitHub
      = dispatch app grp revision codedeployTypes.RevisionLocationTypeGitHub)
  /\ (k <> "appspec_content" ->
      dispatch app grp (<[k := v]> revision) codedeployTypes.RevisionLocationTypeAppSpecContent
      = dispatch app grp revision codedeployTypes.RevisionLocationTypeAppSpecContent).
Proof.
  unfold codedeployTypes.RevisionLocationTypeS3, codedeployTypes.RevisionLocationTypeGitHub,
    codedeployTypes.RevisionLocationTypeAppSpecContent.
  repeat split; intros; unfold dispatch, nestedBlock;
    unfold codedeployTypes.RevisionLocationTypeS3, codedeployTypes.RevisionLocationTypeGitHub,
      codedeployTypes.RevisionLocationTypeAppSpecContent;
    cbn [String.eqb Ascii.eqb Bool.eqb]; by rewrite mapIndex_insert_ne.
Qed.

Lemma dispatch_reads_only_the_block_of_its_tag_witness :
  dispatch "app" "fleet"
    (<["s3_location" := ASlice [AMap s3Block]]>
       (revisionOf "GitHub" "github_location" githubBlock)) "GitHub"
  = dispatch "app" "fleet" (revisionOf "GitHub" "github_location" githubBlock) "GitHub".
Proof.
  apply (dispatch_reads_only_the_block_of_its_tag "app" "fleet"
           (revisionOf "GitHub" "github_location" githubBlock)
           "s3_location" (ASlice [AMap s3Block])).
  discriminate.
Defined.

(** ** The schema's validators against the resolvers *)

Lemma StringInSlice_accepts valid i k :
  validation.StringInSlice valid i k = ([], []) <->
  exists v, i = AString v /\ In v valid.
Proof.
  unfold validation.StringInSlice. split.
  - destruct i as [|v| | | | |]; try discriminate.
    destruct (existsb (String.eqb v) valid) eqn:He; [|discriminate].
    intros _. exists v. split; [reflexivity|].
    apply existsb_exists in He as (x & Hx & Heq).
    apply String.eqb_eq in Heq. by subst.
  - intros (v & -> & Hin).
    assert (existsb (String.eqb v) valid = true) as ->; [|reflexivity].
    apply existsb_exists. exists v. split; [assumption | apply String.eqb_refl].
Qed.

(** A [bundle_type] that the schema's validator accepts is a plain string,
    zip or tar, and the S3 resolver asserts the SDK's [BundleType]: on a
    block with an accepted [bundle_type] the resolver always panics.  The
    other way round, whenever the resolver returns a request, the validator
    has an error for the block's [bundle_type]. *)
Theorem validated_bundle_type_makes_S3_resolver_panic app grp (m : gmap string any) :
  (bundleTypeValidateFunc (mapIndex m "bundle_type") "bundle_type" = ([], []) ->
     prepareDeploymentInputWithS3Location app grp m = Panicked InterfaceConversion)
  /\ (forall input,
        prepareDeploymentInputWithS3Location app grp m = Returned input ->
        bundleTypeValidateFunc (mapIndex m "bundle_type") "bundle_type"
        = ([], [validation.ExpectedString "bundle_type"])).
Proof.
  split.
  - intros Hv. apply StringInSlice_accepts in Hv as (v & Hv & _).
    destruct (prepareDeploymentInputWithS3Location app grp m) as [input|p] eqn:Hp.
    + apply prepare_S3_Returned_inv in Hp as (? & ? & ? & _ & _ & Ht).
      rewrite Hv in Ht. discriminate Ht.
    + f_equal. by apply prepare_S3_Panicked_inv in Hp.
  - intros input Hp.
    apply prepare_S3_Returned_inv in Hp as (? & ? & ? & _ & _ & ->).
    reflexivity.
Qed.

Lemma validated_bundle_type_makes_S3_resolver_panic_witness :
  prepareDeploymentInputWithS3Location "app" "fleet"
    (<["bundle_type" := AString "zip"]> s3Block) = Panicked InterfaceConversion
  /\ bundleTypeValidateFunc (mapIndex s3Block "bundle_type") "bundle_type"
     = ([], [validation.ExpectedString "bundle_type"]).
Proof.
  split.
  - apply (validated_bundle_type_makes_S3_resolver_panic "app" "fleet"
             (<["bundle_type" := AString "zip"]> s3Block)).
    vm_compute. reflexivity.
  - eapply (proj2 (validated_bundle_type_makes_S3_resolver_panic "app" "fleet" s3Block)).
    vm_compute. reflexivity.
Defined.

Lemma dispatch_tag_never_zero app grp (revision : gmap string any) t :
  t = codedeployTypes.RevisionLocationTypeS3
  \/ t = codedeployTypes.RevisionLocationTypeGitHub
  \/ t = codedeployTypes.RevisionLocationTypeAppSpecContent ->
  dispatch app grp revision t <> Returned CreateDeploymentInput.zero.
Proof.
  unfold codedeployTypes.RevisionLocationTypeS3, codedeployTypes.RevisionLocationTypeGitHub,
    codedeployTypes.RevisionLocationTypeAppSpecContent.
  intros [-> | [-> | ->]] H; unfold dispatch in H;
    unfold codedeployTypes.RevisionLocationTypeS3, codedeployTypes.RevisionLocationTypeGitHub,
      codedeployTypes.RevisionLocationTypeAppSpecContent in H;
    cbn [String.eqb Ascii.eqb Bool.eqb] in H;
    apply bind_Returned in H as (block & _ & H);
    unfold prepareDeploymentInputWithS3Location, prepareDeploymentInputWithGitHubLocation,
      prepareDeploymentInputWithAppSpecContent in H;
    repeat (apply bind_Returned in H as (? & _ & H)); discriminate H.
Qed.

(** The validator of [revision_type] accepts exactly the three tags, and
    the strings it rejects are exactly those for which the dispatch resolves
    the zero request: a discriminator that passed validation always takes a
    case of the switch. *)
Theorem zero_request_iff_revision_type_rejected
    app grp (revision : gmap string any) t :
  (revisionTypeValidateFunc (AString t) "revision_type" = ([], [])
   <-> t = codedeployTypes.RevisionLocationTypeS3
       \/ t = codedeployTypes.RevisionLocationTypeGitHub
       \/ t = codedeployTypes.RevisionLocationTypeAppSpecContent)
  /\ (dispatch app grp revision t = Returned CreateDeploymentInput.zero
      <-> revisionTypeValidateFunc (AString t) "revision_type" <> ([], [])).
Proof.
  assert (revisionTypeValidateFunc (AString t) "revision_type" = ([], [])
          <-> t = codedeployTypes.RevisionLocationTypeS3
              \/ t = codedeployTypes.RevisionLocationTypeGitHub
              \/ t = codedeployTypes.RevisionLocationTypeAppSpecContent) as Hacc.
  { unfold revisionTypeValidateFunc. rewrite StringInSlice_accepts. split.
    - intros (v & [= <-] & Hin). cbn in Hin. intuition congruence.
    - intros H. exists t. split; [reflexivity|]. cbn. intuition congruence. }
  split; [exact Hacc|]. rewrite Hacc. split.
  - intros Hz Htag. by apply (dispatch_tag_never_zero app grp revision t Htag).
  - intros Hno. unfold dispatch.
    destruct (String.eqb_spec t codedeployTypes.RevisionLocationTypeS3); [tauto|].
    destruct (String.eqb_spec t codedeployTypes.RevisionLocationTypeGitHub); [tauto|].
    destruct (String.eqb_spec t codedeployTypes.RevisionLocationTypeAppSpecContent); [tauto|].
    reflexivity.
Qed.

(** ** The lifecycle operations on every client *)

Ltac run_ops :=
  unfold resourceDeploymentCreate, resourceDeploymentRead, resourceDeploymentDelete,
    V0.resourceDeploymentCreate, V0.resourceDeploymentRead,
    svcCreateDeployment, svcGetDeployment, svcStopDeployment, waiterWaitForOutput,
    call, dId, dGet, dSet, dSetId, dTimeout, lift, deref, assertBool, fetchOf,
    aws.String, aws.Bool, schema.Set_, mbind, M_bind, mret, M_ret.
Ltac run_step :=
  cbn [data remote calls schema.id schema.attrs schema.timeouts schema.writer schema.SetId].
Ltac run_cases :=
  repeat (run_step;
          match goal with
          | |- context [match ?x with _ => _ end] =>
              lazymatch x with
              | context [match _ with _ => _ end] => fail
              | _ => destruct x eqn:?
              end
          end).

Section Protocol.
Context {Remote : Type}.
Variable svc : Client Remote.

(** Read makes one call, the fetch of the stored identity, whatever the
    service answers and whether it returns or panics; it never changes the
    identity, the timeouts or the writer, and of the attributes it touches
    [deployment_status] alone. *)
Theorem read_touches_only_the_status (s : State Remote) :
  exists r s',
    resourceDeploymentRead svc s = (r, s')
    /\ calls s' = calls s ++ [fetchOf (data s)]
    /\ schema.id (data s') = schema.id (data s)
    /\ schema.timeouts (data s') = schema.timeouts (data s)
    /\ schema.writer (data s') = schema.writer (data s)
    /\ forall k, k <> "deployment_status" ->
         schema.attrs (data s') !! k = schema.attrs (data s) !! k.
Proof.
  run_ops. run_cases.
  all: eexists _, _; (split; [reflexivity|]); run_step.
  all: repeat split; try reflexivity.
  all: intros k Hk; by rewrite ?lookup_insert_ne.
Qed.

(** Delete never changes the resource data; it fetches the stored identity
    first and then calls Stop at most once, and nothing else; and whenever
    it returns, it returns at most one diagnostic and none of severity
    error. *)
Theorem delete_never_fails_nor_writes (s : State Remote) :
  exists r s',
    resourceDeploymentDelete svc s = (r, s')
    /\ data s' = data s
    /\ (calls s' = calls s ++ [fetchOf (data s)]
        \/ exists stop, calls s' = calls s ++ [fetchOf (data s); CallStopDeployment stop])
    /\ forall diags, r = Returned diags ->
         diag.HasError diags = false /\ (length diags <= 1)%nat.
Proof.
  run_ops. run_cases.
  all: eexists _, _; (split; [reflexivity|]); run_step.
  all: idtac; (split; [reflexivity|]).
  all: rewrite <- ?app_assoc; (split; [first [by left | right; by eexists] |]).
  all: intros diags [= <-]; (split; [reflexivity | cbn; lia]).
Qed.

(** The calls create makes, on every client and whether it returns or
    panics.  If the request cannot be built, create panics at once, with no
    call made and nothing changed.  Otherwise the request is submitted and
    the log goes on in one of four ways: nothing more; the wait; the wait
    and one Stop for the same deployment id; the wait and the fetch of the
    identity that was stored.  There is never a second Stop, never a fetch
    before the wait, never a Stop after a fetch. *)
Theorem create_call_protocol (s : State Remote) :
  exists r s',
    resourceDeploymentCreate svc s = (r, s')
    /\ ((exists p, createInput (data s) = Panicked p /\ r = Panicked p /\ s' = s)
        \/ exists input,
            createInput (data s) = Returned input
            /\ (calls s' = calls s ++ [CallCreateDeployment input]
                \/ exists ident,
                    let wait :=
                      CallWaitForOutput delay
                        {| GetDeploymentInput.DeploymentId := ident |}
                        (time.sub (schema.Timeout (data s) schema.TimeoutCreate) delay) in
                    calls s' = calls s ++ [CallCreateDeployment input; wait]
                    \/ (exists flag,
                          calls s' = calls s ++
                            [CallCreateDeployment input; wait;
                             CallStopDeployment
                               {| StopDeploymentInput.DeploymentId := ident;
                                  StopDeploymentInput.AutoRollbackEnabled := Some flag |}])
                    \/ (exists newId,
                          ident = Some newId
                          /\ calls s' = calls s ++
                               [CallCreateDeployment input; wait;
                                CallGetDeployment
                                  {| GetDeploymentInput.DeploymentId := Some newId |}]))).
Proof.
  destruct (createInput (data s)) as [input|p] eqn:Hin.
  - run_ops. rewrite Hin. run_cases.
    all: eexists _, _; (split; [reflexivity|]); run_step.
    all: right; exists input; (split; [reflexivity|]).
    all: rewrite <- ?app_assoc; cbn [app].
    all: first
      [ by left
      | right; eexists; cbv zeta; by left
      | right; eexists; cbv zeta; right; left; by eexists
      | right; eexists; cbv zeta; right; right; eexists; split; reflexivity ].
  - run_ops. rewrite Hin. eexists _, _. split; [reflexivity|].
    left. by exists p.
Qed.

(** Create changes nothing of the resource data but the identity and the
    [deployment_status] attribute, and the identity it leaves is either the
    one it found or the deployment id that a successful Submit returned. *)
Theorem create_touches_only_identity_and_status (s : State Remote) :
  exists r s',
    resourceDeploymentCreate svc s = (r, s')
    /\ schema.timeouts (data s') = schema.timeouts (data s)
    /\ schema.writer (data s') = schema.writer (data s)
    /\ (forall k, k <> "deployment_status" ->
          schema.attrs (data s') !! k = schema.attrs (data s) !! k)
    /\ (schema.id (data s') = schema.id (data s)
        \/ exists input created r1,
            createInput (data s) = Returned input
            /\ CreateDeployment svc input (remote s) = ((Some created, None), r1)
            /\ CreateDeploymentOutput.DeploymentId created = Some (schema.id (data s'))).
Proof.
  destruct (createInput (data s)) as [input|p] eqn:Hin.
  - run_ops. rewrite Hin. run_step.
    destruct (CreateDeployment svc input (remote s)) as [[created createErr] r1] eqn:Hcreate.
    run_cases.
    all: eexists _, _; (split; [reflexivity|]); run_step.
    all: (split; [reflexivity|]); (split; [reflexivity|]).
    all: (split; [intros k Hk; by rewrite ?lookup_insert_ne|]).
    all: first [by left | right; by eexists _, _, _].
  - run_ops. rewrite Hin. eexists _, _. split; [reflexivity|]. by repeat split; try left.
Qed.

(** With the discriminator one of the three tags and the nested block of
    that tag missing from the revision, or present as an empty list, create
    panics (a failed type assertion, or an index out of range) before any
    call is made, and leaves everything as it was. *)
Theorem create_without_nested_block_panics
    (s : State Remote) app grp (revision : gmap string any) others revisionType key :
  schema.Get (data s) "application_name" = AString app ->
  schema.Get (data s) "deployment_group_name" = AString grp ->
  schema.Get (data s) "revision" = ASlice (AMap revision :: others) ->
  mapIndex revision "revision_type" = AString revisionType ->
  (revisionType = codedeployTypes.RevisionLocationTypeS3 /\ key = "s3_location")
  \/ (revisionType = codedeployTypes.RevisionLocationTypeGitHub /\ key = "github_location")
  \/ (revisionType = codedeployTypes.RevisionLocationTypeAppSpecContent
      /\ key = "appspec_content") ->
  (revision !! key = None ->
     resourceDeploymentCreate svc s = (Panicked InterfaceConversion, s))
  /\ (revision !! key = Some (ASlice []) ->
      resourceDeploymentCreate svc s = (Panicked IndexOutOfRange, s)).
Proof.
  intros Happ Hgrp Hrev Htype Htag.
  assert (forall p, nestedBlock revision key = Panicked p ->
                    resourceDeploymentCreate svc s = (Panicked p, s)) as Hpanic.
  { intros p Hn.
    assert (createInput (data s) = Panicked p) as Hin.
    { unfold createInput. rewrite Happ, Hgrp, Hrev. cbn. rewrite Htype. cbn.
      unfold dispatch.
      destruct Htag as [[-> ->] | [[-> ->] | [-> ->]]];
        unfold codedeployTypes.RevisionLocationTypeS3,
          codedeployTypes.RevisionLocationTypeGitHub,
          codedeployTypes.RevisionLocationTypeAppSpecContent;
        cbn [String.eqb Ascii.eqb Bool.eqb]; by rewrite Hn. }
    run_ops. by rewrite Hin. }
  split; intros Hk; apply Hpanic; unfold nestedBlock, mapIndex; by rewrite Hk.
Qed.

(** A second read against a service that answers the fetch as before
    leaves the resource data as the first read left it. *)
Theorem read_twice_is_read_once (s : State Remote) out info r1 r2 :
  GetDeployment svc (GetDeploymentInput.Build_t (Some (schema.id (data s)))) (remote s)
    = ((Some out, None), r1) ->
  GetDeployment svc (GetDeploymentInput.Build_t (Some (schema.id (data s)))) r1
    = ((Some out, None), r2) ->
  GetDeploymentOutput.DeploymentInfo out = Some info ->
  exists s1 s2,
    resourceDeploymentRead svc s = (Returned [], s1)
    /\ resourceDeploymentRead svc s1 = (Returned [], s2)
    /\ data s2 = data s1.
Proof.
  intros Hget1 Hget2 Hinfo.
  destruct (schema.writer (data s) "deployment_status"
              (ADeploymentStatus (DeploymentInfo.Status info))) as [e|] eqn:Hw.
  - eexists _, _. split; [|split].
    + run_ops. rewrite Hget1. run_step. rewrite Hinfo, Hw. reflexivity.
    + run_ops. run_step. rewrite Hget2. run_step. rewrite Hinfo, Hw. reflexivity.
    + reflexivity.
  - eexists _, _. split; [|split].
    + run_ops. rewrite Hget1. run_step. rewrite Hinfo, Hw. reflexivity.
    + run_ops. run_step. rewrite Hget2. run_step. rewrite Hinfo, Hw. reflexivity.
    + run_step. by rewrite insert_insert_eq.
Qed.

(** When the service answers the fetch without an error but also without
    an output, or with an output that has no deployment info, read and
    delete both panic on the nil pointer, after that one call, with the
    resource data as it was. *)
Theorem fetch_without_record_panics (s : State Remote) fetched r1 :
  GetDeployment svc (GetDeploymentInput.Build_t (Some (schema.id (data s)))) (remote s)
    = ((fetched, None), r1) ->
  fetched = None \/ fetched = Some (GetDeploymentOutput.Build_t None) ->
  resourceDeploymentRead svc s
    = (Panicked NilDereference, Build_State (data s) r1 (calls s ++ [fetchOf (data s)]))
  /\ resourceDeploymentDelete svc s
    = (Panicked NilDereference, Build_State (data s) r1 (calls s ++ [fetchOf (data s)])).
Proof.
  intros Hget [-> | ->]; split; run_ops; by rewrite Hget.
Qed.

(** When Submit succeeds with an output that carries no deployment id,
    create still waits, for a nil id; if that wait succeeds create panics on
    the nil pointer, with no identity stored and no further call. *)
Theorem create_without_deployment_id_panics (s : State Remote) input r1 output r2 :
  createInput (data s) = Returned input ->
  CreateDeployment svc input (remote s)
    = ((Some (CreateDeploymentOutput.Build_t None), None), r1) ->
  WaitForOutput svc delay (GetDeploymentInput.Build_t None)
    (time.sub (schema.Timeout (data s) schema.TimeoutCreate) delay) r1
    = ((output, None), r2) ->
  resourceDeploymentCreate svc s
  = (Panicked NilDereference,
     Build_State (data s) r2
       (calls s ++ [CallCreateDeployment input;
                    CallWaitForOutput delay (GetDeploymentInput.Build_t None)
                      (time.sub (schema.Timeout (data s) schema.TimeoutCreate) delay)])).
Proof.
  intros Hin Hcreate Hwait. run_ops. rewrite Hin. run_step. rewrite Hcreate. run_step.
  cbn [CreateDeploymentOutput.DeploymentId].
  rewrite Hwait. run_step. by rewrite <- app_assoc.
Qed.

(** With a create timeout of at most the 15 seconds of the delay, the
    maximum wait create passes to the waiter is zero or negative. *)
Theorem create_short_timeout_leaves_no_wait (s : State Remote) input created r1 :
  createInput (data s) = Returned input ->
  CreateDeployment svc input (remote s) = ((Some created, None), r1) ->
  0 <= schema.Timeout (data s) schema.TimeoutCreate <= 15 * time.Second ->
  exists r s' more maxWait,
    resourceDeploymentCreate svc s = (r, s')
    /\ calls s' =
         calls s ++
         CallCreateDeployment input ::
         CallWaitForOutput (15 * time.Second)
           {| GetDeploymentInput.DeploymentId := CreateDeploymentOutput.DeploymentId created |}
           maxWait :: more
    /\ maxWait = schema.Timeout (data s) schema.TimeoutCreate - 15 * time.Second
    /\ maxWait <= 0.
Proof.
  intros Hin Hcreate Hrange.
  assert (time.sub (schema.Timeout (data s) schema.TimeoutCreate) delay
          = schema.Timeout (data s) schema.TimeoutCreate - 15 * time.Second) as Hsub.
  { apply sub_exact. unfold delay, time.Second in *. lia. }
  run_ops. rewrite Hin. run_step. rewrite Hcreate.
  run_cases.
  all: do 4 eexists; (split; [reflexivity|]); run_step.
  all: rewrite <- ?app_assoc; (split; [reflexivity|]).
  all: split; [exact Hsub | lia].
Qed.

(** A create that succeeds and a delete that follows it, on a deployment
    that the service reports in a final status both times: the delete
    fetches the identity the create stored, issues no Stop and returns no
    diagnostics; four calls are made in all. *)
Theorem create_then_delete_of_finished_deployment
    (s : State Remote) input created newId r1 output r2 fetched info r3 fetched' info' r4 :
  createInput (data s) = Returned input ->
  CreateDeployment svc input (remote s) = ((Some created, None), r1) ->
  CreateDeploymentOutput.DeploymentId created = Some newId ->
  WaitForOutput svc delay (GetDeploymentInput.Build_t (Some newId))
    (time.sub (schema.Timeout (data s) schema.TimeoutCreate) delay) r1
    = ((output, None), r2) ->
  GetDeployment svc (GetDeploymentInput.Build_t (Some newId)) r2
    = ((Some fetched, None), r3) ->
  GetDeploymentOutput.DeploymentInfo fetched = Some info ->
  GetDeployment svc (GetDeploymentInput.Build_t (Some newId)) r3
    = ((Some fetched', None), r4) ->
  GetDeploymentOutput.DeploymentInfo fetched' = Some info' ->
  DeploymentInfo.Status info' = codedeployTypes.DeploymentStatusSucceeded
  \/ DeploymentInfo.Status info' = codedeployTypes.DeploymentStatusFailed
  \/ DeploymentInfo.Status info' = codedeployTypes.DeploymentStatusStopped ->
  exists s1 s2,
    resourceDeploymentCreate svc s = (Returned [], s1)
    /\ schema.id (data s1) = newId
    /\ resourceDeploymentDelete svc s1 = (Returned [], s2)
    /\ data s2 = data s1
    /\ calls s2 =
         calls s ++
         [CallCreateDeployment input;
          CallWaitForOutput delay (GetDeploymentInput.Build_t (Some newId))
            (time.sub (schema.Timeout (data s) schema.TimeoutCreate) delay);
          CallGetDeployment (GetDeploymentInput.Build_t (Some newId));
          CallGetDeployment (GetDeploymentInput.Build_t (Some newId))].
Proof.
  intros Hin Hcreate Hid Hwait Hget Hinfo Hget' Hinfo' Hfinal.
  assert (exists s1,
             resourceDeploymentCreate svc s = (Returned [], s1)
             /\ schema.id (data s1) = newId /\ remote s1 = r3
             /\ calls s1 = calls s ++
                  [CallCreateDeployment input;
                   CallWaitForOutput delay (GetDeploymentInput.Build_t (Some newId))
                     (time.sub (schema.Timeout (data s) schema.TimeoutCreate) delay);
                   CallGetDeployment (GetDeploymentInput.Build_t (Some newId))])
    as (s1 & Hrun & Hid1 & Hr1 & Hcalls1).
  { run_ops. rewrite Hin. run_step. rewrite Hcreate. run_step. rewrite Hid, Hwait.
    run_step. rewrite Hget. run_step. rewrite Hinfo.
    destruct (schema.writer (data s) "deployment_status"
                (ADeploymentStatus (DeploymentInfo.Status info)));
      eexists; (split; [reflexivity|]); run_step;
      rewrite <- !app_assoc; by repeat split. }
  destruct s1 as [d1 rem1 calls1]. cbn [data remote calls] in *. subst rem1 calls1.
  assert (negb (String.eqb (DeploymentInfo.Status info')
                  codedeployTypes.DeploymentStatusSucceeded)
          && negb (String.eqb (DeploymentInfo.Status info')
                     codedeployTypes.DeploymentStatusFailed)
          && negb (String.eqb (DeploymentInfo.Status info')
                     codedeployTypes.DeploymentStatusStopped) = false) as Hterminal.
  { destruct Hfinal as [-> | [-> | ->]]; reflexivity. }
  eexists _, _. split; [exact Hrun|]. split; [exact Hid1|].
  split; [|split].
  - run_ops. run_step. rewrite Hid1, Hget'. run_step. rewrite Hinfo', Hterminal.
    reflexivity.
  - reflexivity.
  - run_step. by rewrite <- !app_assoc.
Qed.

(** Whenever create returns without a diagnostic of severity error, Submit
    had succeeded and the identity create leaves behind is the deployment
    id that Submit returned. *)
Theorem create_success_stores_submitted_identity (s : State Remote) diags s' :
  resourceDeploymentCreate svc s = (Returned diags, s') ->
  diag.HasError diags = false ->
  exists input created r1,
    createInput (data s) = Returned input
    /\ CreateDeployment svc input (remote s) = ((Some created, None), r1)
    /\ CreateDeploymentOutput.DeploymentId created = Some (schema.id (data s')).
Proof.
  intros Hrun Hok. revert Hrun.
  destruct (createInput (data s)) as [input|p] eqn:Hin;
    run_ops; rewrite Hin; run_step; [|intros [=]].
  destruct (CreateDeployment svc input (remote s)) as [[created createErr] r1] eqn:Hcreate.
  run_cases.
  all: intros [= <- <-]; try discriminate Hok.
  all: run_step; by eexists _, _, _.
Qed.

End Protocol.

(** ** The previous revision against the current one *)

(** The request built from the configuration is the same in both
    revisions, panics included: reading the revision block anew in every
    case of the switch, as the previous revision did, changes nothing. *)
Theorem previous_createInput_unchanged (d : schema.ResourceData) :
  V0.createInput d = createInput d.
Proof.
  unfold V0.createInput, createInput, V0.revisionBlock, dispatch.
  destruct (assertString (schema.Get d "application_name")) as [app|]; [|reflexivity].
  destruct (assertString (schema.Get d "deployment_group_name")) as [grp|]; [|reflexivity].
  cbn [mbind outcome_bind].
  destruct (assertSlice (schema.Get d "revision")) as [l|]; [|reflexivity].
  cbn [mbind outcome_bind].
  destruct (sliceIndex l 0) as [e|]; [|reflexivity].
  cbn [mbind outcome_bind].
  destruct (assertMap e) as [revision|]; [|reflexivity].
  cbn [mbind outcome_bind].
  destruct (assertString (mapIndex revision "revision_type")) as [t|]; reflexivity.
Qed.

Section Previous.
Context {Remote : Type}.
Variable svc : Client Remote.

(** Read is the same function in both revisions: the check of the error
    of [d.Set] that the current revision added returns the nil fetch error,
    which is what the previous revision returned without the check. *)
Theorem previous_read_unchanged (s : State Remote) :
  V0.resourceDeploymentRead svc s = resourceDeploymentRead svc s.
Proof. run_ops. run_cases; reflexivity. Qed.

(** The previous revision never called Stop from create, on any client:
    a failed wait left the deployment running. *)
Theorem previous_create_never_stops (s : State Remote) :
  exists r s',
    V0.resourceDeploymentCreate svc s = (r, s')
    /\ stopCalls (calls s') = stopCalls (calls s).
Proof.
  run_ops. run_cases.
  all: eexists _, _; (split; [reflexivity|]); run_step.
  all: unfold stopCalls; rewrite ?List.filter_app; cbn [List.filter isStop];
    by rewrite ?app_nil_r.
Qed.

End Previous.

(** ** The provider's configuration *)

(** With a string for [region], [providerConfigure] loads the configuration
    for that region with the adaptive retry mode, and returns either a
    client built from it and no diagnostics, or no client and the error of
    the loader as an error diagnostic: never both and never neither.  With
    anything else for [region] it panics. *)
Theorem providerConfigure_client_or_error
    {Config ClientT : Type} (LoadDefaultConfig : list config.LoadOption -> Config * option error)
    (NewFromConfig : Config -> ClientT) (d : schema.ResourceData) :
  (forall region,
      schema.Get d "region" = AString region ->
      let loaded := LoadDefaultConfig [ config.WithRegion region;
                                        config.WithRetryMode "adaptive" ] in
      exists client diags,
        providerConfigure LoadDefaultConfig NewFromConfig d = Returned (client, diags)
        /\ (is_Some client <-> diag.HasError diags = false)
        /\ (snd loaded = None ->
              client = Some (NewFromConfig (fst loaded)) /\ diags = [])
        /\ (forall e, snd loaded = Some e ->
              client = None
              /\ diags = [ {| diag.severity := diag.Error; diag.Summary := e |} ]))
  /\ ((forall region, schema.Get d "region" <> AString region) ->
      providerConfigure LoadDefaultConfig NewFromConfig d = Panicked InterfaceConversion).
Proof.
  split.
  - intros region Hr loaded. unfold providerConfigure. rewrite Hr. cbn [assertString mbind outcome_bind].
    unfold aws.RetryModeAdaptive. fold loaded.
    destruct loaded as [cfg [e|]]; eexists _, _; (split; [reflexivity|]); cbn.
    + split; [split; [by intros [? [=]] | intros [=]]|]. split; [intros [=]|].
      by intros e' [= <-].
    + split; [split; [done | by eexists]|]. split; [done|]. intros e [=].
  - intros Hno. unfold providerConfigure.
    destruct (schema.Get d "region") as [|region| | | | |]; try reflexivity.
    by destruct (Hno region).
Qed.

Lemma providerConfigure_client_or_error_witness :
  providerConfigure knownRegions id (providerData (AString "eu-west-1"))
    = Returned (Some "eu-west-1", [])
  /\ providerConfigure knownRegions id (providerData (AString "mars-1"))
    = Returned (None, [ {| diag.severity := diag.Error; diag.Summary := "unknown region" |} ])
  /\ providerConfigure knownRegions id (providerData (ABool true))
    = Panicked InterfaceConversion.
Proof.
  split; [|split].
  - destruct (proj1 (providerConfigure_client_or_error knownRegions id
                       (providerData (AString "eu-west-1")))
                "eu-west-1" eq_refl) as (client & diags & -> & _ & Hok & _).
    by destruct (Hok eq_refl) as [-> ->].
  - destruct (proj1 (providerConfigure_client_or_error knownRegions id
                       (providerData (AString "mars-1")))
                "mars-1" eq_refl) as (client & diags & -> & _ & _ & Herr).
    by destruct (Herr "unknown region" eq_refl) as [-> ->].
  - apply (providerConfigure_client_or_error knownRegions id (providerData (ABool true))).
    intros region. vm_compute. discriminate.
Defined.

(** ** The further theorems on concrete runs *)

Lemma create_without_nested_block_panics_witness :
  resourceDeploymentCreate succeeding (start blocklessData)
    = (Panicked InterfaceConversion, start blocklessData)
  /\ resourceDeploymentCreate succeeding (start emptyBlockData)
    = (Panicked IndexOutOfRange, start emptyBlockData).
Proof.
  split.
  - apply (create_without_nested_block_panics succeeding (start blocklessData)
             "app" "fleet" (revisionOf "S3" "github_location" githubBlock) [] "S3"
             "s3_location").
    all: try (vm_compute; reflexivity).
    left. split; reflexivity.
  - apply (create_without_nested_block_panics succeeding (start emptyBlockData)
             "app" "fleet"
             (list_to_map [ ("revision_type", AString "S3"); ("s3_location", ASlice []) ])
             [] "S3" "s3_location").
    all: try (vm_compute; reflexivity).
    left. split; reflexivity.
Defined.

Lemma read_twice_is_read_once_witness :
  exists s1 s2,
    resourceDeploymentRead succeeding (start storedData) = (Returned [], s1)
    /\ resourceDeploymentRead succeeding s1 = (Returned [], s2)
    /\ data s2 = data s1.
Proof.
  exact (read_twice_is_read_once succeeding (start storedData)
           (recordOf "d-123" "Succeeded") (DeploymentInfo.Build_t (Some "d-123") "Succeeded")
           tt tt eq_refl eq_refl eq_refl).
Defined.

Lemma fetch_without_record_panics_witness :
  (resourceDeploymentRead (recordless None) (start storedData)
     = (Panicked NilDereference, Build_State storedData tt ([] ++ [fetchOf storedData]))
   /\ resourceDeploymentDelete (recordless None) (start storedData)
     = (Panicked NilDereference, Build_State storedData tt ([] ++ [fetchOf storedData])))
  /\ (resourceDeploymentRead
        (recordless (Some (GetDeploymentOutput.Build_t None))) (start storedData)
      = (Panicked NilDereference, Build_State storedData tt ([] ++ [fetchOf storedData]))
      /\ resourceDeploymentDelete
           (recordless (Some (GetDeploymentOutput.Build_t None))) (start storedData)
         = (Panicked NilDereference,
            Build_State storedData tt ([] ++ [fetchOf storedData]))).
Proof.
  split.
  - apply (fetch_without_record_panics (recordless None) (start storedData) None tt eq_refl).
    by left.
  - apply (fetch_without_record_panics
             (recordless (Some (GetDeploymentOutput.Build_t None))) (start storedData)
             (Some (GetDeploymentOutput.Build_t None)) tt eq_refl).
    by right.
Defined.

Lemma create_without_deployment_id_panics_witness :
  resourceDeploymentCreate idless (start githubData)
  = (Panicked NilDereference,
     Build_State githubData tt
       ([] ++ [CallCreateDeployment githubInput;
               CallWaitForOutput delay (GetDeploymentInput.Build_t None)
                 (time.sub (schema.Timeout githubData schema.TimeoutCreate) delay)])).
Proof.
  apply (create_without_deployment_id_panics idless (start githubData) githubInput tt
           (Some (recordOf "d-123" "Succeeded")) tt).
  - vm_compute. reflexivity.
  - reflexivity.
  - reflexivity.
Defined.

Lemma create_short_timeout_leaves_no_wait_witness :
  exists r s' more maxWait,
    resourceDeploymentCreate succeeding (start shortTimeoutData) = (r, s')
    /\ calls s' =
         [] ++
         CallCreateDeployment githubInput ::
         CallWaitForOutput (15 * time.Second)
           {| GetDeploymentInput.DeploymentId := Some "d-123" |} maxWait :: more
    /\ maxWait = 10 * time.Second - 15 * time.Second
    /\ maxWait <= 0.
Proof.
  apply (create_short_timeout_leaves_no_wait succeeding (start shortTimeoutData)
           githubInput {| CreateDeploymentOutput.DeploymentId := Some "d-123" |} tt).
  - vm_compute. reflexivity.
  - reflexivity.
  - vm_compute. split; discriminate.
Defined.

Lemma create_then_delete_of_finished_deployment_witness :
  exists s1 s2,
    resourceDeploymentCreate succeeding (start githubData) = (Returned [], s1)
    /\ schema.id (data s1) = "d-123"
    /\ resourceDeploymentDelete succeeding s1 = (Returned [], s2)
    /\ data s2 = data s1
    /\ calls s2 =
         [] ++
         [CallCreateDeployment githubInput;
          CallWaitForOutput delay (GetDeploymentInput.Build_t (Some "d-123"))
            (time.sub (schema.Timeout githubData schema.TimeoutCreate) delay);
          CallGetDeployment (GetDeploymentInput.Build_t (Some "d-123"));
          CallGetDeployment (GetDeploymentInput.Build_t (Some "d-123"))].
Proof.
  apply (create_then_delete_of_finished_deployment succeeding (start githubData)
           githubInput {| CreateDeploymentOutput.DeploymentId := Some "d-123" |} "d-123" tt
           (Some (recordOf "d-123" "Succeeded")) tt
           (recordOf "d-123" "Succeeded")
           (DeploymentInfo.Build_t (Some "d-123") "Succeeded") tt
           (recordOf "d-123" "Succeeded")
           (DeploymentInfo.Build_t (Some "d-123") "Succeeded") tt).
  - vm_compute. reflexivity.
  - reflexivity.
  - reflexivity.
  - reflexivity.
  - reflexivity.
  - reflexivity.
  - reflexivity.
  - reflexivity.
  - left. reflexivity.
Defined.

Lemma create_success_stores_submitted_identity_witness :
  exists input created r1,
    createInput githubData = Returned input
    /\ CreateDeployment succeeding input tt = ((Some created, None), r1)
    /\ CreateDeploymentOutput.DeploymentId created = Some "d-123".
Proof.
  apply (create_success_stores_submitted_identity succeeding (start githubData) []
           (snd (resourceDeploymentCreate succeeding (start githubData)))).
  - vm_compute. reflexivity.
  - reflexivity.
Defined.
